(** * BeatPlus, [scripts/csv_to_profiles.py]: usage-profile table generator

    A shallow embedding of the script and of the Python built-ins it calls
    ([str.split], [str.replace], [int], [float], [csv.reader], text-mode
    file iteration, the formatting of f-strings and [print]), followed by
    the properties of the generator.

    Conventions of the embedding:
    - a Python [str] is the list of its Unicode code points ([list N]);
    - a Python [int] is a [Z]; a Python [float] is an IEEE-754 binary64
      value, [spec_float] at precision 53 and maximal exponent 1024;
    - a call that may raise returns in [result]; [try ... except:] is a
      match on the [option] returned by the parsing built-in;
    - CPython 3.11 is the reference for the built-ins (Unicode 14.0 digit
      table, integer-literal digit limit of 4300). *)

From Stdlib Require Import ZArith NArith List String Ascii Bool Lia.
From Stdlib Require Import SpecFloat.
Import ListNotations.

Set Implicit Arguments.

(** ** Python strings *)

Module PyStr.

Definition str := list N.

(** An ASCII literal as a Python string. *)
Definition py (s : string) : str :=
  List.map N_of_ascii (list_ascii_of_string s).

Definition eqb (a b : str) : bool :=
  if list_eq_dec N.eq_dec a b then true else false.

(** [not s] *)
Definition falsy (s : str) : bool :=
  match s with [] => true | _ => false end.

(** [c in s], for a one-character [c] *)
Definition contains (c : N) (s : str) : bool := existsb (N.eqb c) s.

(** [s.split(sep)], for a one-character [sep]: never an empty list. *)
Fixpoint split (sep : N) (s : str) : list str :=
  match s with
  | [] => [[]]
  | c :: r =>
      if (c =? sep)%N then [] :: split sep r
      else match split sep r with
           | p :: ps => (c :: p) :: ps
           | [] => [[c]]
           end
  end.

(** [s.replace(old, new)], for a one-character [old]. *)
Definition replace (old : N) (new : str) (s : str) : str :=
  flat_map (fun c => if (c =? old)%N then new else [c]) s.

(** Characters the script and the built-ins name. *)
Definition colon : N := 58.
Definition space : N := 32.
Definition comma : N := 44.
Definition percent : N := 37.
Definition dot : N := 46.
Definition underscore : N := 95.
Definition plus : N := 43.
Definition minus : N := 45.
Definition quote : N := 34.
Definition LF : N := 10.
Definition CR : N := 13.

End PyStr.
Import PyStr.

(** ** Python exceptions and the error monad *)

Inductive exn : Type :=
| IndexError
| StopIteration
| CsvError.

Definition result (A : Type) : Type := (A + exn)%type.
Definition ret {A} (a : A) : result A := inl a.
Definition raise {A} (e : exn) : result A := inr e.
Definition bind {A B} (m : result A) (k : A -> result B) : result B :=
  match m with
  | inl a => k a
  | inr e => inr e
  end.

Notation "x <- m ;; k" := (bind m (fun x => k))
  (at level 61, m at next level, right associativity).

(** [l[i]] for a non-negative constant [i]. *)
Definition index {A} (l : list A) (i : nat) : result A :=
  match nth_error l i with
  | Some a => ret a
  | None => raise IndexError
  end.

(** ** The numeric built-ins [int] and [float] *)

Module PyNum.

(** [Py_ISSPACE]: the C-locale white space of the number parsers. *)
Definition is_space (c : N) : bool :=
  ((9 <=? c) && (c <=? 13) || (c =? 32))%N.

(** [str.isspace] beyond ASCII ([Py_UNICODE_ISSPACE]). *)
Definition unicode_spaces : list N :=
  [0x85; 0xa0; 0x1680; 0x2000; 0x2001; 0x2002; 0x2003; 0x2004; 0x2005;
   0x2006; 0x2007; 0x2008; 0x2009; 0x200a; 0x2028; 0x2029; 0x202f;
   0x205f; 0x3000]%N.

Definition unicode_space (c : N) : bool := existsb (N.eqb c) unicode_spaces.

(** The code points of the digit zero of every decimal script
    (Unicode 14.0, general category Nd); each is followed by its 1..9. *)
Definition decimal_zeros : list N :=
  [0x30; 0x660; 0x6f0; 0x7c0; 0x966; 0x9e6; 0xa66; 0xae6; 0xb66; 0xbe6;
   0xc66; 0xce6; 0xd66; 0xde6; 0xe50; 0xed0; 0xf20; 0x1040; 0x1090;
   0x17e0; 0x1810; 0x1946; 0x19d0; 0x1a80; 0x1a90; 0x1b50; 0x1bb0;
   0x1c40; 0x1c50; 0xa620; 0xa8d0; 0xa900; 0xa9d0; 0xa9f0; 0xaa50;
   0xabf0; 0xff10; 0x104a0; 0x10d30; 0x11066; 0x110f0; 0x11136;
   0x111d0; 0x112f0; 0x11450; 0x114d0; 0x11650; 0x116c0; 0x11730;
   0x118e0; 0x11950; 0x11c50; 0x11d50; 0x11da0; 0x16a60; 0x16ac0;
   0x16b50; 0x1d7ce; 0x1d7d8; 0x1d7e2; 0x1d7ec; 0x1d7f6; 0x1e140;
   0x1e2f0; 0x1e950; 0x1fbf0]%N.

(** [Py_UNICODE_TODECIMAL] *)
Definition unicode_decimal (c : N) : option N :=
  match find (fun z => (z <=? c) && (c <? z + 10))%N decimal_zeros with
  | Some z => Some (c - z)%N
  | None => None
  end.

(** [_PyUnicode_TransformDecimalAndSpaceToASCII]: an ASCII string is
    returned as it is; otherwise white space becomes a blank, a decimal
    digit its ASCII digit, and the first other character beyond ASCII
    becomes ['?'] and ends the string. *)
Fixpoint transform_chars (s : str) : str :=
  match s with
  | [] => []
  | c :: r =>
      if (c <? 127)%N then c :: transform_chars r
      else if unicode_space c then space :: transform_chars r
      else match unicode_decimal c with
           | Some d => (48 + d)%N :: transform_chars r
           | None => [63%N]
           end
  end.

Definition transform (s : str) : str :=
  if forallb (fun c => c <? 128)%N s then s else transform_chars s.

Fixpoint lstrip (s : str) : str :=
  match s with
  | c :: r => if is_space c then lstrip r else s
  | [] => []
  end.

Definition digit (c : N) : option Z :=
  if ((48 <=? c) && (c <=? 57))%N then Some (Z.of_N (c - 48)) else None.

Definition is_digit (c : N) : bool :=
  match digit c with Some _ => true | None => false end.

(** *** [int(s)], base 10 *)

(** [sys.int_info.default_max_str_digits] *)
Definition max_str_digits : N := 4300.

(** The scan of [long_from_string_base]: digits and single underscores;
    [prev] is the character before, [acc] the value and [digits] the
    number of digits read so far. A doubled or trailing underscore is an
    error; the scan stops at the first other character. *)
Fixpoint scan_digits (prev : N) (acc : Z) (digits : N) (s : str)
  : option (Z * N * str) :=
  match s with
  | c :: r =>
      if (c =? underscore)%N then
        if (prev =? underscore)%N then None
        else scan_digits c acc digits r
      else match digit c with
           | Some d => scan_digits c (10 * acc + d)%Z (digits + 1)%N r
           | None =>
               if (prev =? underscore)%N then None
               else Some (acc, digits, s)
           end
  | [] => if (prev =? underscore)%N then None else Some (acc, digits, [])
  end.

Definition sign_and_rest (s : str) : bool * str :=
  match s with
  | c :: r =>
      if (c =? minus)%N then (true, r)
      else if (c =? plus)%N then (false, r)
      else (false, s)
  | [] => (false, [])
  end.

(** [PyLong_FromString(s, 10)] on the transformed string: leading white
    space, a sign, the digits, trailing white space, end of string. *)
Definition int_of_ascii (s : str) : option Z :=
  let (neg, body) := sign_and_rest (lstrip s) in
  match body with
  | [] => None
  | c :: _ =>
      if (c =? underscore)%N then None
      else match scan_digits 0%N 0%Z 0%N body with
           | None => None
           | Some (v, digits, rest) =>
               if (digits =? 0)%N then None
               else match lstrip rest with
                    | _ :: _ => None
                    | [] =>
                        if (max_str_digits <? digits)%N then None
                        else Some (if neg then (- v)%Z else v)
                    end
           end
  end.

(** [int(s)]: [None] stands for [ValueError]. *)
Definition int (s : str) : option Z := int_of_ascii (transform s).

(** *** [float(s)] *)

Definition prec : Z := 53.
Definition emax : Z := 1024.

(** The binary64 value nearest to [m * 10^e] (ties to even), with sign
    [neg]: what David Gay's [strtod] returns, overflow giving an
    infinity and underflow a zero or a subnormal. *)
Definition float_of_decimal (neg : bool) (m : N) (e : Z) : spec_float :=
  match m with
  | N0 => S754_zero neg
  | Npos p =>
      if (0 <=? e)%Z then
        match (Zpos p * 10 ^ e)%Z with
        | Zpos q => binary_round prec emax neg q 0
        | _ => S754_nan
        end
      else
        match (10 ^ (- e))%Z with
        | Zpos q =>
            SFdiv prec emax (S754_finite neg p 0) (S754_finite false q 0)
        | _ => S754_nan
        end
  end.

(** [float(n)] for an integer [n]. *)
Definition float_of_Z (n : Z) : spec_float :=
  float_of_decimal (n <? 0)%Z (Z.abs_N n) 0.

(** The longest prefix of digits, and what follows it. *)
Fixpoint span_digits (s : str) : list Z * str :=
  match s with
  | c :: r =>
      match digit c with
      | Some d => let (ds, rest) := span_digits r in (d :: ds, rest)
      | None => ([], s)
      end
  | [] => ([], [])
  end.

Definition digits_value (ds : list Z) : Z :=
  fold_left (fun acc d => 10 * acc + d)%Z ds 0%Z.

Fixpoint drop_zeros (ds : list Z) : list Z :=
  match ds with
  | d :: r => if (d =? 0)%Z then drop_zeros r else ds
  | [] => []
  end.

(** [MAX_DIGITS] of [_Py_dg_strtod] *)
Definition max_digits : N := 1000000000.

(** The exponent part: ['e'] or ['E'], a sign, at least one digit;
    without a digit the exponent marker is not consumed. *)
Definition exponent (s : str) : Z * str :=
  match s with
  | c :: r =>
      if ((c =? 101) || (c =? 69))%N then
        let (eneg, r') := sign_and_rest r in
        match span_digits r' with
        | ([], _) => (0%Z, s)
        | (ds, rest) =>
            ((if eneg then - digits_value ds else digits_value ds)%Z, rest)
        end
      else (0%Z, s)
  | [] => (0%Z, [])
  end.

(** The decimal syntax of [_Py_dg_strtod], after the sign: digits, a
    point, digits (one digit at least), an exponent. Returns mantissa,
    decimal exponent and the unread rest. *)
Definition decimal (s : str) : option (N * Z * str) :=
  let (ip, r1) := span_digits s in
  let (fp, r2) :=
    match r1 with
    | c :: r => if (c =? dot)%N then span_digits r else ([], r1)
    | [] => ([], [])
    end in
  match ip ++ fp with
  | [] => None
  | ds =>
      if ((max_digits <? N.of_nat (List.length (drop_zeros ds)))
          || (max_digits <? N.of_nat (List.length fp)))%N then None
      else
        let (e, r3) := exponent r2 in
        Some (Z.to_N (digits_value ds), (e - Z.of_nat (List.length fp))%Z, r3)
  end.

Definition to_lower (c : N) : N :=
  if ((65 <=? c) && (c <=? 90))%N then (c + 32)%N else c.

(** [case_insensitive_match]: [t] is lower case; the rest of [s] after
    the match. *)
Fixpoint match_lower (t s : str) : option str :=
  match t, s with
  | [], _ => Some s
  | a :: t', c :: s' =>
      if (to_lower c =? a)%N then match_lower t' s' else None
  | _ :: _, [] => None
  end.

(** [_Py_parse_inf_or_nan] *)
Definition inf_or_nan (s : str) : option (spec_float * str) :=
  let (neg, body) := sign_and_rest s in
  match match_lower (py "inf") body with
  | Some r =>
      match match_lower (py "inity") r with
      | Some r' => Some (S754_infinity neg, r')
      | None => Some (S754_infinity neg, r)
      end
  | None =>
      match match_lower (py "nan") body with
      | Some r => Some (S754_nan, r)
      | None => None
      end
  end.

(** [PyOS_string_to_double] with the check of [float_from_string_inner]
    that the whole string was read. *)
Definition string_to_double (s : str) : option spec_float :=
  let (neg, body) := sign_and_rest s in
  match decimal body with
  | Some (m, e, []) => Some (float_of_decimal neg m e)
  | Some (_, _, _ :: _) => None
  | None =>
      match inf_or_nan s with
      | Some (f, []) => Some f
      | _ => None
      end
  end.

(** The underscore pass of [_Py_string_to_number_with_underscores]: an
    underscore is allowed only between two digits. *)
Fixpoint remove_underscores (prev : N) (s : str) : option str :=
  match s with
  | [] => if (prev =? underscore)%N then None else Some []
  | c :: r =>
      if (c =? underscore)%N then
        if is_digit prev then remove_underscores c r else None
      else if ((prev =? underscore)%N && negb (is_digit c))%bool then None
      else option_map (cons c) (remove_underscores c r)
  end.

Definition rstrip (s : str) : str := rev (lstrip (rev s)).

(** [PyFloat_FromString] on the transformed string. *)
Definition float_of_ascii (s : str) : option spec_float :=
  match lstrip s with
  | [] => None
  | c :: r =>
      let body := c :: rstrip r in
      if contains underscore body then
        match remove_underscores 0%N body with
        | Some body' => string_to_double body'
        | None => None
        end
      else string_to_double body
  end.

(** [float(s)]: [None] stands for [ValueError]. *)
Definition float (s : str) : option spec_float :=
  float_of_ascii (transform s).

End PyNum.

(** ** Text files and [csv.reader] *)

Module TextFile.

(** The lines a file opened in text mode with the default [newline=None]
    yields when iterated: LF, CR and CR LF end a line and are all
    read as LF, which the line keeps; [cur] is the current line,
    reversed. The argument is the decoded content of the file. *)
Fixpoint lines_from (cur : str) (s : str) : list str :=
  match s with
  | [] => match cur with [] => [] | _ => [rev cur] end
  | c :: r =>
      if (c =? LF)%N then rev (LF :: cur) :: lines_from [] r
      else if (c =? CR)%N then
        match r with
        | c' :: r' =>
            if (c' =? LF)%N then rev (LF :: cur) :: lines_from [] r'
            else rev (LF :: cur) :: lines_from [] r
        | [] => [rev (LF :: cur)]
        end
      else lines_from (c :: cur) r
  end.

Definition lines (s : str) : list str := lines_from [] s.

End TextFile.

Module Csv.

(** The parser of [_csv.c] for the default dialect [excel]: delimiter
    comma, quotechar the double quote, [doublequote], no escapechar, no
    [skipinitialspace], not [strict]. The states of an escapechar are
    therefore left out. *)
Inductive state : Type :=
| START_RECORD
| START_FIELD
| IN_FIELD
| IN_QUOTED_FIELD
| QUOTE_IN_QUOTED_FIELD
| EAT_CRNL.

Definition state_eqb (a b : state) : bool :=
  match a, b with
  | START_RECORD, START_RECORD | START_FIELD, START_FIELD
  | IN_FIELD, IN_FIELD | IN_QUOTED_FIELD, IN_QUOTED_FIELD
  | QUOTE_IN_QUOTED_FIELD, QUOTE_IN_QUOTED_FIELD
  | EAT_CRNL, EAT_CRNL => true
  | _, _ => false
  end.

(** [fields] and [field] are kept reversed: the last one first. *)
Record parser : Type := Parser {
  st : state;
  fields : list str;
  field : str
}.

(** A character of the line, or the end-of-line mark the reader feeds
    after the last character of every line. *)
Inductive input : Type :=
| Char (c : N)
| EOL.

(** [csv.field_size_limit()] *)
Definition field_limit : N := 131072.

Definition parse_reset : parser := Parser START_RECORD [] [].

Definition parse_save_field (p : parser) : parser :=
  Parser (st p) (rev (field p) :: fields p) [].

Definition parse_add_char (p : parser) (c : N) : result parser :=
  if (field_limit <=? N.of_nat (List.length (field p)))%N
  then raise CsvError
  else ret (Parser (st p) (fields p) (c :: field p)).

Definition set_state (s : state) (p : parser) : parser :=
  Parser s (fields p) (field p).

Definition is_newline (i : input) : bool :=
  match i with
  | Char c => ((c =? LF) || (c =? CR))%N
  | EOL => false
  end.

Definition is_char (x : N) (i : input) : bool :=
  match i with
  | Char c => (c =? x)%N
  | EOL => false
  end.

Definition after_field (i : input) : state :=
  match i with EOL => START_RECORD | Char _ => EAT_CRNL end.

Definition start_field (p : parser) (i : input) : result parser :=
  match i with
  | EOL => ret (set_state START_RECORD (parse_save_field p))
  | Char c =>
      if is_newline i then ret (set_state EAT_CRNL (parse_save_field p))
      else if (c =? quote)%N then ret (set_state IN_QUOTED_FIELD p)
      else if (c =? comma)%N then ret (parse_save_field p)
      else p' <- parse_add_char p c ;; ret (set_state IN_FIELD p')
  end.

(** [parse_process_char] *)
Definition parse_process_char (p : parser) (i : input) : result parser :=
  match st p with
  | START_RECORD =>
      match i with
      | EOL => ret p
      | Char _ =>
          if is_newline i then ret (set_state EAT_CRNL p)
          else start_field (set_state START_FIELD p) i
      end
  | START_FIELD => start_field p i
  | IN_FIELD =>
      match i with
      | EOL => ret (set_state START_RECORD (parse_save_field p))
      | Char c =>
          if is_newline i then ret (set_state EAT_CRNL (parse_save_field p))
          else if (c =? comma)%N
          then ret (set_state START_FIELD (parse_save_field p))
          else parse_add_char p c
      end
  | IN_QUOTED_FIELD =>
      match i with
      | EOL => ret p
      | Char c =>
          if (c =? quote)%N then ret (set_state QUOTE_IN_QUOTED_FIELD p)
          else parse_add_char p c
      end
  | QUOTE_IN_QUOTED_FIELD =>
      match i with
      | EOL => ret (set_state START_RECORD (parse_save_field p))
      | Char c =>
          if (c =? quote)%N then
            p' <- parse_add_char p c ;; ret (set_state IN_QUOTED_FIELD p')
          else if (c =? comma)%N
          then ret (set_state START_FIELD (parse_save_field p))
          else if is_newline i
          then ret (set_state EAT_CRNL (parse_save_field p))
          else p' <- parse_add_char p c ;; ret (set_state IN_FIELD p')
      end
  | EAT_CRNL =>
      match i with
      | EOL => ret (set_state START_RECORD p)
      | Char _ => if is_newline i then ret p else raise CsvError
      end
  end.

(** One line: its characters, then the end-of-line mark. *)
Fixpoint process_line (p : parser) (line : str) : result parser :=
  match line with
  | [] => parse_process_char p EOL
  | c :: r => p' <- parse_process_char p (Char c) ;; process_line p' r
  end.

(** The rows the reader yields over the lines, in order, and how the
    iteration ends: [None] when the lines are exhausted, [Some e] when
    the reader raises [e] after the rows listed. A record is complete
    when a line leaves the parser in [START_RECORD]; lines exhausted inside
    a record yield what was read of it. *)
Fixpoint records (p : parser) (ls : list str) : list (list str) * option exn :=
  match ls with
  | [] =>
      if (negb (falsy (field p)) || state_eqb (st p) IN_QUOTED_FIELD)%bool
      then ([rev (fields (parse_save_field p))], None)
      else ([], None)
  | l :: ls' =>
      match process_line p l with
      | inr e => ([], Some e)
      | inl p' =>
          if state_eqb (st p') START_RECORD then
            let (rows, e) := records parse_reset ls' in
            (rev (fields p') :: rows, e)
          else records p' ls'
      end
  end.

Definition reader (ls : list str) : list (list str) * option exn :=
  records parse_reset ls.

End Csv.

(** ** The script [csv_to_profiles.py] *)

Import PyNum.

(** A [dict] literal with string keys and values, in the order written. *)
Definition dict : Type := list (str * str).

(** [d.get(k)] *)
Fixpoint get (d : dict) (k : str) : option str :=
  match d with
  | [] => None
  | (k', v) :: d' => if eqb k k' then Some v else get d' k
  end.

Definition ID_MAPPING : dict :=
  [ (py "01", py "1_single_office");
    (py "02", py "2_group_office");
    (py "03", py "3_open_plan_office");
    (py "04", py "4_meeting");
    (py "05", py "5_counter");
    (py "06", py "6_retail");
    (py "07", py "7_retail_refrig");
    (py "08", py "8_classroom");
    (py "09", py "9_lecture_hall");
    (py "10", py "10_bed_room");
    (py "11", py "11_hotel_room");
    (py "12", py "12_canteen");
    (py "13", py "13_restaurant");
    (py "14", py "14_kitchen");
    (py "15", py "15_kitchen_prep");
    (py "16", py "16_wc");
    (py "17", py "17_common_area");
    (py "18", py "18_support_store");
    (py "19", py "19_corridor_care");
    (py "20", py "20_storage_uncond");
    (py "21", py "21_datacenter");
    (py "22.1", py "22_1_workshop_light");
    (py "22.2", py "22_2_workshop_medium");
    (py "22.3", py "22_3_workshop_heavy");
    (py "23", py "23_theater_audience");
    (py "24", py "24_cloakroom");
    (py "25", py "25_theater_foh");
    (py "26", py "26_stage");
    (py "31", py "31_gym");
    (py "32", py "32_parking_office");
    (py "33", py "33_parking_public");
    (py "34", py "34_sauna");
    (py "35", py "35_fitness");
    (py "36", py "36_lab");
    (py "37", py "37_exam_room");
    (py "38", py "38_icu");
    (py "39", py "39_corridor_icu");
    (py "40", py "40_medical_practice");
    (py "41", py "41_logistics");
    (py "42", py "residential_single");
    (py "43", py "residential_multi");
    (py "44", py "residential_general") ].

(** Defined by the script and read nowhere in it. *)
Definition MANUAL_MAP : dict :=
  [ (py "26", py "28_fair");
    (py "27", py "27_exhibition");
    (py "28", py "29_library_public");
    (py "29", py "30_library_stack") ].

(** [try: parts = t_str.split(":"); return int(parts[0])], with [None]
    for any exception, which the bare [except:] turns into [0]. *)
Definition parse_time_try (t_str : str) : option Z :=
  let parts := split colon t_str in
  match index parts 0 with
  | inl p => int p
  | inr _ => None
  end.

Definition parse_time (t_str : str) : Z :=
  if (falsy t_str || negb (contains colon t_str))%bool then 0%Z
  else match parse_time_try t_str with
       | Some n => n
       | None => 0%Z
       end.

(** What [clean_num] returns: the [int] zero or a [float]. On a cell,
    which is a string, [str(s)] is [s]. *)
Inductive number : Type :=
| Int (n : Z)
| Float (f : spec_float).

Definition clean_num (s : str) : number :=
  if falsy s then Int 0
  else
    let s := replace percent [] (replace comma [] s) in
    match float s with
    | Some f => Float f
    | None => Int 0
    end.

(** The dictionary [p] built for a row, one field per key. *)
Module Profile.
Record t : Type := Make {
  id : str;
  name : str;
  usageHoursStart : Z;
  usageHoursEnd : Z;
  dailyUsageHours : number;
  annualUsageDays : number;
  usageHoursDay : number;
  usageHoursNight : number;
  hvacDailyOperationHours : number;
  hvacAnnualOperationDays : number;
  illuminance : number;
  workplaneHeight : number;
  illuminanceDepreciationFactor : number;
  lightingAbsenceFactor : number;
  partialOperationFactorLighting : number;
  heatingSetpoint : number;
  coolingSetpoint : number;
  heatingSetbackTemp : number;
  heatingDesignMinTemp : number;
  coolingDesignMaxTemp : number;
  humidityRequirement : str;
  minOutdoorAir : number;
  minOutdoorAirFlow : number;
  hvacAbsenceFactor : number;
  hvacPartialOperationFactor : number;
  metabolicHeat : number;
  equipmentHeat : number
}.
End Profile.

(** The [if]/[elif] chain of lines 100-105, tried when the table has no
    entry: the identifier it assigns, [None] when no branch is taken. *)
Definition override (prefix : str) : option str :=
  if eqb prefix (py "26") then Some (py "28_fair")
  else if eqb prefix (py "27") then Some (py "27_exhibition")
  else if eqb prefix (py "28") then Some (py "29_library_public")
  else if eqb prefix (py "29") then Some (py "30_library_stack")
  else if eqb prefix (py "30") then Some (py "30_library_stack_closed")
  else if eqb prefix (py "25") then Some (py "26_stage")
  else None.

(** [not id_key], for [id_key] a string or [None]. *)
Definition not_id (id_key : option str) : bool :=
  match id_key with
  | Some s => falsy s
  | None => true
  end.

(** The synthetic identifier of line 116. *)
Definition fallback (prefix : str) : str :=
  py "profile_" ++ replace dot (py "_") prefix.

(** Lines 97-116: the identifier of a prefix. *)
Definition resolve (prefix : str) : str :=
  let id_key := get ID_MAPPING prefix in
  let id_key :=
    if not_id id_key then
      match override prefix with
      | Some k => Some k
      | None => id_key
      end
    else id_key in
  match id_key with
  | Some ((_ :: _) as k) => k
  | _ => fallback prefix
  end.

(** The body of the loop over the rows, lines 90-149: [None] when the row
    is skipped by [continue], the dictionary appended to [profiles]
    otherwise; [IndexError] when the row has no cell at an index read. *)
Definition row_profile (row : list str) : result (option Profile.t) :=
  match row with
  | [] => ret None
  | row0 :: _ =>
      if falsy row0 then ret None
      else
        raw_name <- index row 0 ;;
        prefix <- index (split space raw_name) 0 ;;
        let id_key := resolve prefix in
        c1 <- index row 1 ;;
        c2 <- index row 2 ;;
        c3 <- index row 3 ;;
        c4 <- index row 4 ;;
        c5 <- index row 5 ;;
        c6 <- index row 6 ;;
        c7 <- index row 7 ;;
        c8 <- index row 8 ;;
        c10 <- index row 10 ;;
        c11 <- index row 11 ;;
        c12 <- index row 12 ;;
        c13 <- index row 13 ;;
        c15 <- index row 15 ;;
        c16 <- index row 16 ;;
        c17 <- index row 17 ;;
        c18 <- index row 18 ;;
        c19 <- index row 19 ;;
        c20 <- index row 20 ;;
        c21 <- index row 21 ;;
        c22 <- index row 22 ;;
        c23 <- index row 23 ;;
        c24 <- index row 24 ;;
        c25 <- index row 25 ;;
        c26 <- index row 26 ;;
        c27 <- index row 27 ;;
        ret (Some {|
          Profile.id := id_key;
          Profile.name := raw_name;
          Profile.usageHoursStart := parse_time c1;
          Profile.usageHoursEnd := parse_time c2;
          Profile.dailyUsageHours := clean_num c3;
          Profile.annualUsageDays := clean_num c4;
          Profile.usageHoursDay := clean_num c5;
          Profile.usageHoursNight := clean_num c6;
          Profile.hvacDailyOperationHours := clean_num c7;
          Profile.hvacAnnualOperationDays := clean_num c8;
          Profile.illuminance := clean_num c10;
          Profile.workplaneHeight := clean_num c11;
          Profile.illuminanceDepreciationFactor := clean_num c12;
          Profile.lightingAbsenceFactor := clean_num c13;
          Profile.partialOperationFactorLighting := clean_num c15;
          Profile.heatingSetpoint := clean_num c16;
          Profile.coolingSetpoint := clean_num c17;
          Profile.heatingSetbackTemp := clean_num c18;
          Profile.heatingDesignMinTemp := clean_num c19;
          Profile.coolingDesignMaxTemp := clean_num c20;
          Profile.humidityRequirement := c21;
          Profile.minOutdoorAir := clean_num c22;
          Profile.minOutdoorAirFlow := clean_num c23;
          Profile.hvacAbsenceFactor := clean_num c24;
          Profile.hvacPartialOperationFactor := clean_num c25;
          Profile.metabolicHeat := clean_num c26;
          Profile.equipmentHeat := clean_num c27
        |})
  end.

(** [for row in reader: ...] over the rows after the header; [profiles]
    is the list built so far. *)
Fixpoint loop (rows : list (list str)) (profiles : list Profile.t)
  : result (list Profile.t) :=
  match rows with
  | [] => ret profiles
  | row :: rest =>
      o <- row_profile row ;;
      loop rest (match o with
                 | Some p => profiles ++ [p]
                 | None => profiles
                 end)
  end.

(** The first part of [generate_ts], over what the reader yields: the
    header is taken with [next(reader)], the other rows are looped over,
    and an error of the reader surfaces when the loop reaches it. *)
Definition profiles_of (r : list (list str) * option exn)
  : result (list Profile.t) :=
  match r with
  | ([], None) => raise StopIteration
  | ([], Some e) => raise e
  | (header :: rows, e) =>
      ps <- loop rows [] ;;
      match e with
      | None => ret ps
      | Some x => raise x
      end
  end.

(** [generate_ts] up to the list [profiles], from the decoded content of
    the input file. The second part prints one entry per element of
    [profiles], in order and keyed by its [id]; it starts only when the
    list is complete, so a run that raises prints nothing. *)
Definition generate_ts (text : str) : result (list Profile.t) :=
  profiles_of (Csv.reader (TextFile.lines text)).

(** The entries of the printed table. *)
Definition emitted (text : str) : list Profile.t :=
  match generate_ts text with
  | inl ps => ps
  | inr _ => []
  end.

(** ** Formatting: [str] of an [int], [repr] of a [float] *)

Module PyFmt.

(** The decimal digits of [n], most significant first; [fuel] bounds
    their number and [acc] holds the digits already produced. *)
Fixpoint digits_fuel (fuel : nat) (n : N) (acc : str) : str :=
  match fuel with
  | O => acc
  | S f =>
      let acc' := (48 + n mod 10)%N :: acc in
      if (n <? 10)%N then acc' else digits_fuel f (n / 10)%N acc'
  end.

Definition decimal_digits (n : N) : str :=
  digits_fuel (S (N.size_nat n)) n [].

(** [str(z)]: [None] stands for the [ValueError] of an integer of more
    than [max_str_digits] digits. *)
Definition str_of_int (z : Z) : option str :=
  let ds := decimal_digits (Z.abs_N z) in
  if (max_str_digits <? N.of_nat (List.length ds))%N then None
  else Some (if (z <? 0)%Z then minus :: ds else ds).

(** The finite positive value [m * 2^e] as a fraction, and the fraction
    divided by [10^k]. *)
Definition ratio (m : positive) (e : Z) : Z * Z :=
  if (0 <=? e)%Z then (Zpos m * 2 ^ e, 1)%Z else (Zpos m, 2 ^ (- e))%Z.

Definition scale10 (r : Z * Z) (k : Z) : Z * Z :=
  let (n, d) := r in
  if (0 <=? k)%Z then (n, d * 10 ^ k)%Z else (n * 10 ^ (- k), d)%Z.

(** [10^t <= x] *)
Definition ge_pow10 (r : Z * Z) (t : Z) : bool :=
  let (n, d) := scale10 r t in (d <=? n)%Z.

(** The [t] with [10^t <= x < 10^(t+1)]: the estimate from the binary
    size of [x] is off by one at most. *)
Definition decimal_exponent (m : positive) (e : Z) : Z :=
  let r := ratio m e in
  let b := (Zdigits2 (Zpos m) + e)%Z in
  let t0 := ((b - 1) * 30103 / 100000)%Z in
  if ge_pow10 r (t0 + 2) then (t0 + 2)%Z
  else if ge_pow10 r (t0 + 1) then (t0 + 1)%Z
  else if ge_pow10 r t0 then t0
  else if ge_pow10 r (t0 - 1) then (t0 - 1)%Z
  else (t0 - 2)%Z.

(** [c * 10^k] read back as a float gives [m * 2^e]. *)
Definition reads_back (m : positive) (e : Z) (c k : Z) : bool :=
  match float_of_decimal false (Z.to_N c) k with
  | S754_finite _ m' e' => ((m' =? m)%positive && (e' =? e)%Z)%bool
  | _ => false
  end.

(** The shortest decimal that reads back as [m * 2^e], and among the
    shortest the nearest, the one with an even last digit when two are
    as near: for [n] digits, from the given [n] on, the two [n]-digit
    decimals around the value are tried. What David Gay's [dtoa]
    returns in mode 0. *)
Fixpoint shortest_from (fuel : nat) (n : Z) (m : positive) (e t : Z)
  : Z * Z :=
  let k := (t - (n - 1))%Z in
  let (num, den) := scale10 (ratio m e) k in
  let lo := (num / den)%Z in
  let rm := (num mod den)%Z in
  let hi := (lo + 1)%Z in
  let nearest :=
    match (2 * rm ?= den)%Z with
    | Lt => lo
    | Gt => hi
    | Eq => if Z.even lo then lo else hi
    end in
  match fuel with
  | O => (nearest, k)
  | S f =>
      let ok_lo := reads_back m e lo k in
      let ok_hi := reads_back m e hi k in
      if (rm =? 0)%Z then (lo, k)
      else if (ok_lo && ok_hi)%bool then (nearest, k)
      else if ok_lo then (lo, k)
      else if ok_hi then (hi, k)
      else shortest_from f (n + 1) m e t
  end.

(** Trailing zeros go from the digits to the exponent. *)
Fixpoint strip_zeros (fuel : nat) (c k : Z) : Z * Z :=
  match fuel with
  | O => (c, k)
  | S f =>
      if ((c mod 10 =? 0) && negb (c =? 0))%Z
      then strip_zeros f (c / 10)%Z (k + 1)%Z
      else (c, k)
  end.

(** The digits of [dtoa] and the position of the decimal point. *)
Definition shortest_digits (m : positive) (e : Z) : str * Z :=
  let t := decimal_exponent m e in
  let (c, k) := shortest_from 16 1 m e t in
  let (c', k') := strip_zeros 17 c k in
  let ds := decimal_digits (Z.to_N c') in
  (ds, (Z.of_nat (List.length ds) + k')%Z).

(** The exponent as [%+.02d] prints it. *)
Definition exponent_text (x : Z) : str :=
  let ds := decimal_digits (Z.abs_N x) in
  (if (x <? 0)%Z then minus else plus)
    :: match ds with
       | [d] => [48%N; d]
       | _ => ds
       end.

(** [format_float_short] for the code ['r']: the exponent form below
    [1e-4] and from [1e16] on, the positional form with a fraction part
    otherwise. *)
Definition layout (digits : str) (decpt : Z) : str :=
  let len := Z.of_nat (List.length digits) in
  if ((decpt <=? -4) || (16 <? decpt))%Z then
    match digits with
    | d :: d2 :: r => d :: dot :: d2 :: r
    | _ => digits
    end ++ [101%N] ++ exponent_text (decpt - 1)
  else if (decpt <=? 0)%Z then
    py "0." ++ repeat 48%N (Z.to_nat (- decpt)) ++ digits
  else if (decpt <? len)%Z then
    firstn (Z.to_nat decpt) digits ++ [dot] ++ skipn (Z.to_nat decpt) digits
  else digits ++ repeat 48%N (Z.to_nat (decpt - len)) ++ py ".0".

(** [repr(x)], which is [str(x)] and what an f-string prints *)
Definition repr_float (x : spec_float) : str :=
  match x with
  | S754_nan => py "nan"
  | S754_infinity neg => if neg then py "-inf" else py "inf"
  | S754_zero neg => if neg then py "-0.0" else py "0.0"
  | S754_finite neg m e =>
      let (ds, decpt) := shortest_digits m e in
      (if neg then [minus] else []) ++ layout ds decpt
  end.

End PyFmt.

(** ** The second part of [generate_ts]: the printed table *)

(** What an f-string puts for a value of [clean_num]: [str] of the [int]
    or of the [float]; [None] stands for [ValueError]. *)
Definition format_number (x : number) : option str :=
  match x with
  | Int n => PyFmt.str_of_int n
  | Float f => Some (PyFmt.repr_float f)
  end.

(** An f-string with one and with two replacement fields between
    literal parts; it raises when the formatting of a value does, the
    first value first. *)
Definition fmt1 (a : string) (x : option str) (b : string) : option str :=
  match x with
  | Some u => Some (py a ++ u ++ py b)
  | None => None
  end.

Definition fmt2 (a : string) (x : option str) (b : string) (y : option str)
  (c : string) : option str :=
  match x, y with
  | Some u, Some v => Some (py a ++ u ++ py b ++ v ++ py c)
  | _, _ => None
  end.

(** A string between double quotes, as it stands: nothing is escaped. *)
Definition quoted (s : str) : str := [quote] ++ s ++ [quote].

(** The seventeen strings printed for one element of [profiles], lines
    154-170, each with the formatting that may raise. *)
Definition entry (p : Profile.t) : list (option str) :=
  [ fmt1 "    " (Some (quoted (Profile.id p))) ": {";
    fmt2 "        id: " (Some (quoted (Profile.id p)))
         ", name: " (Some (quoted (Profile.name p))) ",";
    fmt2 "        usageHoursStart: "
         (PyFmt.str_of_int (Profile.usageHoursStart p))
         ", usageHoursEnd: "
         (PyFmt.str_of_int (Profile.usageHoursEnd p)) ",";
    fmt2 "        dailyUsageHours: "
         (format_number (Profile.dailyUsageHours p))
         ", annualUsageDays: "
         (format_number (Profile.annualUsageDays p)) ",";
    fmt2 "        usageHoursDay: "
         (format_number (Profile.usageHoursDay p))
         ", usageHoursNight: "
         (format_number (Profile.usageHoursNight p)) ",";
    fmt2 "        hvacDailyOperationHours: "
         (format_number (Profile.hvacDailyOperationHours p))
         ", hvacAnnualOperationDays: "
         (format_number (Profile.hvacAnnualOperationDays p)) ",";
    fmt2 "        illuminance: "
         (format_number (Profile.illuminance p))
         ", workplaneHeight: "
         (format_number (Profile.workplaneHeight p)) ",";
    fmt2 "        illuminanceDepreciationFactor: "
         (format_number (Profile.illuminanceDepreciationFactor p))
         ", lightingAbsenceFactor: "
         (format_number (Profile.lightingAbsenceFactor p)) ",";
    fmt1 "        partialOperationFactorLighting: "
         (format_number (Profile.partialOperationFactorLighting p)) ",";
    fmt2 "        heatingSetpoint: "
         (format_number (Profile.heatingSetpoint p))
         ", coolingSetpoint: "
         (format_number (Profile.coolingSetpoint p)) ",";
    fmt1 "        heatingSetbackTemp: "
         (format_number (Profile.heatingSetbackTemp p)) ",";
    fmt2 "        heatingDesignMinTemp: "
         (format_number (Profile.heatingDesignMinTemp p))
         ", coolingDesignMaxTemp: "
         (format_number (Profile.coolingDesignMaxTemp p)) ",";
    fmt1 "        humidityRequirement: "
         (Some (quoted (Profile.humidityRequirement p))) ",";
    fmt2 "        minOutdoorAir: "
         (format_number (Profile.minOutdoorAir p))
         ", minOutdoorAirFlow: "
         (format_number (Profile.minOutdoorAirFlow p)) ",";
    fmt2 "        hvacAbsenceFactor: "
         (format_number (Profile.hvacAbsenceFactor p))
         ", hvacPartialOperationFactor: "
         (format_number (Profile.hvacPartialOperationFactor p)) ",";
    fmt2 "        metabolicHeat: "
         (format_number (Profile.metabolicHeat p))
         ", equipmentHeat: "
         (format_number (Profile.equipmentHeat p)) "";
    Some (py "    },") ].

Definition table_head : str :=
  py "export const DIN_18599_PROFILES: Record<string, UsageProfile> = {".

Definition table_foot : str := py "};".

(** Lines 152-171: every string that is to be printed, in order. *)
Definition table (profiles : list Profile.t) : list (option str) :=
  Some table_head :: flat_map entry profiles ++ [Some table_foot].

(** What the calls of [print] leave on standard output, one string for
    each call, and whether a [ValueError] ended them: the strings before
    the first one whose formatting raises are printed. Standard output is
    taken to accept every character, as a UTF-8 stream does. *)
Fixpoint print_all (items : list (option str)) : list str * bool :=
  match items with
  | [] => ([], false)
  | Some line :: rest =>
      let (out, raised) := print_all rest in (line :: out, raised)
  | None :: _ => ([], true)
  end.

(** How a run ends: normally, with an exception of the first part, or
    with the [ValueError] of a formatting. *)
Inductive ending : Type :=
| Done
| Raised (e : exn)
| ValueError.

(** [generate_ts()] on the decoded content of the input file: what it
    prints and how it ends. *)
Definition run (text : str) : list str * ending :=
  match generate_ts text with
  | inr e => ([], Raised e)
  | inl profiles =>
      let (out, raised) := print_all (table profiles) in
      (out, if raised then ValueError else Done)
  end.

(** ** Notions the properties are stated with *)

(** The characters of [s] before the first [sep]; all of [s] when it has
    none. *)
Fixpoint before (sep : N) (s : str) : str :=
  match s with
  | [] => []
  | c :: r => if (c =? sep)%N then [] else c :: before sep r
  end.

(** [s] without its commas and percent signs. *)
Definition without_separators (s : str) : str :=
  filter (fun c => negb ((c =? comma) || (c =? percent))%N) s.

(** [s] with every dot turned into an underscore. *)
Definition dots_to_underscores (s : str) : str :=
  List.map (fun c => if (c =? dot)%N then underscore else c) s.

(** A row without a first cell, or with an empty one. *)
Definition blank (row : list str) : bool :=
  match row with
  | [] => true
  | c :: _ => falsy c
  end.

(** The record of the field table for a row: every field from the cell at
    its fixed position. *)
Definition profile_of_cells (row : list str) : Profile.t :=
  let cell i := nth i row [] in
  {| Profile.id := resolve (before space (cell 0));
     Profile.name := cell 0;
     Profile.usageHoursStart := parse_time (cell 1);
     Profile.usageHoursEnd := parse_time (cell 2);
     Profile.dailyUsageHours := clean_num (cell 3);
     Profile.annualUsageDays := clean_num (cell 4);
     Profile.usageHoursDay := clean_num (cell 5);
     Profile.usageHoursNight := clean_num (cell 6);
     Profile.hvacDailyOperationHours := clean_num (cell 7);
     Profile.hvacAnnualOperationDays := clean_num (cell 8);
     Profile.illuminance := clean_num (cell 10);
     Profile.workplaneHeight := clean_num (cell 11);
     Profile.illuminanceDepreciationFactor := clean_num (cell 12);
     Profile.lightingAbsenceFactor := clean_num (cell 13);
     Profile.partialOperationFactorLighting := clean_num (cell 15);
     Profile.heatingSetpoint := clean_num (cell 16);
     Profile.coolingSetpoint := clean_num (cell 17);
     Profile.heatingSetbackTemp := clean_num (cell 18);
     Profile.heatingDesignMinTemp := clean_num (cell 19);
     Profile.coolingDesignMaxTemp := clean_num (cell 20);
     Profile.humidityRequirement := cell 21;
     Profile.minOutdoorAir := clean_num (cell 22);
     Profile.minOutdoorAirFlow := clean_num (cell 23);
     Profile.hvacAbsenceFactor := clean_num (cell 24);
     Profile.hvacPartialOperationFactor := clean_num (cell 25);
     Profile.metabolicHeat := clean_num (cell 26);
     Profile.equipmentHeat := clean_num (cell 27) |}.

(** The rows the loop accepts: blank ones and those of 28 cells or more. *)
Definition readable (row : list str) : bool :=
  (blank row || (28 <=? List.length row))%bool.

(** The rows after the header that the reader yields for a text. *)
Definition data_rows (text : str) : list (list str) :=
  tl (fst (Csv.reader (TextFile.lines text))).

(** The scenario of the specification: a header line and one data line. *)
Definition scenario_row : str :=
  py "22.1 Workshop,08:00,18:00,10,250,8,2,9,240,,,500,0.85,0.9,0.8,1,20,24,16,5,28,,,0.8,0.9,1.2,5".

Definition scenario (header : str) : str :=
  header ++ [LF] ++ scenario_row ++ [LF].

(** The cells of the data line. *)
Definition scenario_cells : list str := split comma scenario_row.

(** The same with one more cell at the end of the data line. *)
Definition scenario_wide (header : str) (last : str) : str :=
  header ++ [LF] ++ scenario_row ++ [comma] ++ last ++ [LF].

(** A row of 28 cells with hours beyond the clock, and a file holding it
    after a header. *)
Definition hours_row : list str :=
  py "01 Office" :: py "99:00" :: py "-5:30" :: repeat [] 25.

Definition hours_text : str :=
  py "name,start,end" ++ [LF]
  ++ py "01 Office,99:00,-5:30" ++ repeat comma 25 ++ [LF].

(** ** Notions of the further properties *)

(** The branches of the override chain for the prefixes that the primary
    table lacks. *)
Definition live_overrides : dict :=
  [ (py "27", py "27_exhibition");
    (py "28", py "29_library_public");
    (py "29", py "30_library_stack");
    (py "30", py "30_library_stack_closed") ].

(** [s] begins with [p]. *)
Fixpoint starts_with (p s : str) : bool :=
  match p, s with
  | [], _ => true
  | a :: p', c :: s' => ((a =? c)%N && starts_with p' s')%bool
  | _ :: _, [] => false
  end.

(** A line as text-mode iteration yields it: no CR, and no LF but as its
    last character. *)
Fixpoint line_ok (l : str) : bool :=
  match l with
  | [] => true
  | c :: r =>
      (negb (c =? CR)%N
       && match r with [] => true | _ :: _ => negb (c =? LF)%N end
       && line_ok r)%bool
  end.

(** * Properties *)

(** ** Strings *)

Lemma eqb_eq (a b : str) : eqb a b = true <-> a = b.
Proof.
  unfold eqb. destruct (list_eq_dec N.eq_dec a b); split; intros; congruence.
Qed.

Lemma contains_In (c : N) (s : str) : contains c s = true <-> In c s.
Proof.
  unfold contains. rewrite existsb_exists. split.
  - intros (x & Hx & E). apply N.eqb_eq in E. now subst.
  - intros H. exists c. split; [assumption | apply N.eqb_refl].
Qed.

Lemma split_before (sep : N) (s : str) :
  exists ps, split sep s = before sep s :: ps.
Proof.
  induction s as [|c r [ps IH]]; simpl.
  - now exists [].
  - destruct (c =? sep)%N.
    + now exists (split sep r).
    + rewrite IH. now exists ps.
Qed.

Lemma before_app (sep : N) (seg rest : str) :
  contains sep seg = false -> before sep (seg ++ sep :: rest) = seg.
Proof.
  induction seg as [|c r IH]; simpl.
  - now rewrite N.eqb_refl.
  - rewrite N.eqb_sym. destruct (c =? sep)%N; simpl; [discriminate|].
    intros H. now rewrite IH.
Qed.

Lemma replace_empty_filter (old : N) (s : str) :
  replace old [] s = filter (fun c => negb (c =? old)%N) s.
Proof.
  unfold replace. induction s as [|c r IH]; simpl; [reflexivity|].
  rewrite IH. now destruct (c =? old)%N.
Qed.

Lemma replace_without_separators (s : str) :
  replace percent [] (replace comma [] s) = without_separators s.
Proof.
  rewrite !replace_empty_filter. unfold without_separators.
  induction s as [|c r IH]; simpl; [reflexivity|].
  destruct (c =? comma)%N; simpl; [assumption|].
  destruct (c =? percent)%N; simpl; [assumption|]. now rewrite IH.
Qed.

Lemma replace_char_map (old new : N) (s : str) :
  replace old [new] s = List.map (fun c => if (c =? old)%N then new else c) s.
Proof.
  unfold replace. induction s as [|c r IH]; simpl; [reflexivity|].
  rewrite IH. now destruct (c =? old)%N.
Qed.

(** ** The helpers [parse_time] and [clean_num] *)

Lemma parse_time_before (s : str) :
  contains colon s = true ->
  parse_time s = match int (before colon s) with Some n => n | None => 0%Z end.
Proof.
  intros H. unfold parse_time, parse_time_try.
  destruct s as [|c r]; [discriminate|]. rewrite H. simpl orb. cbv iota.
  destruct (split_before colon (c :: r)) as [ps ->]. reflexivity.
Qed.

(** C5. [parse_time] returns [0] for a string that is empty or has no
    colon; for a string with a colon it returns the integer that the
    segment before the first colon parses to, and [0] when [int] rejects
    that segment. It is a total function: no input raises. The three
    values of the specification are as stated. *)
Theorem parse_time_contract :
  (forall s, s = [] \/ contains colon s = false -> parse_time s = 0%Z) /\
  (forall s, contains colon s = true ->
     (forall n, int (before colon s) = Some n -> parse_time s = n) /\
     (int (before colon s) = None -> parse_time s = 0%Z)) /\
  parse_time (py "") = 0%Z /\
  parse_time (py "9:30") = 9%Z /\
  parse_time (py "garbage") = 0%Z.
Proof.
  split; [|split; [|repeat split; reflexivity]].
  - intros s [-> | H]; [reflexivity|].
    unfold parse_time. rewrite H. now rewrite orb_true_r.
  - intros s H. rewrite (parse_time_before s H). split.
    + intros n E. now rewrite E.
    + intros E. now rewrite E.
Qed.

Lemma parse_time_contract_witness :
  contains colon (py "9:30") = true /\
  int (before colon (py "9:30")) = Some 9%Z /\
  parse_time (py "9:30") = 9%Z.
Proof.
  split; [reflexivity|]. split; [reflexivity|].
  apply (proj1 (proj1 (proj2 parse_time_contract) (py "9:30") eq_refl)).
  reflexivity.
Defined.

(** The floats of the examples: [float_of_Z n] is the binary64 value
    [m * 2^e] with [m * 2^e = n]. *)
Lemma float_of_Z_examples :
  float_of_Z 1234 = S754_finite false (1234 * 2 ^ 42) (-42) /\
  float_of_Z 55 = S754_finite false (55 * 2 ^ 47) (-47) /\
  float_of_Z 500 = S754_finite false (500 * 2 ^ 44) (-44).
Proof. repeat split; vm_compute; reflexivity. Qed.

(** C6. [clean_num] returns [0] for the empty string; otherwise it parses
    the string without its commas and percent signs with [float] and
    returns that float, or [0] when [float] rejects it. It is a total
    function: no input raises. The four values of the specification are
    as stated: the floats are the binary64 values
    [5427189394702336 * 2^-42], which is 1234, and
    [7740561859543040 * 2^-47], which is 55. *)
Theorem clean_num_contract :
  (forall s,
     clean_num s =
       match s with
       | [] => Int 0
       | _ => match float (without_separators s) with
              | Some f => Float f
              | None => Int 0
              end
       end) /\
  clean_num (py "") = Int 0 /\
  (clean_num (py "1,234") = Float (S754_finite false 5427189394702336 (-42)) /\
   5427189394702336 = 1234 * 2 ^ 42)%Z /\
  (clean_num (py "55%") = Float (S754_finite false 7740561859543040 (-47)) /\
   7740561859543040 = 55 * 2 ^ 47)%Z /\
  clean_num (py "abc") = Int 0.
Proof.
  split; [|repeat split; vm_compute; reflexivity].
  intros [|c r]; [reflexivity|].
  unfold clean_num. cbv [falsy].
  now rewrite replace_without_separators.
Qed.

(** ** The identifier of a prefix *)

Lemma get_value_nonempty (d : dict) :
  forallb (fun kv => negb (falsy (snd kv))) d = true ->
  forall k v, get d k = Some v -> v <> [].
Proof.
  intros H k v. induction d as [|[k' v'] d IH]; simpl in *; [discriminate|].
  apply andb_prop in H as [Hv Hd].
  destruct (eqb k k').
  - intros [= <-] ->. discriminate.
  - now apply IH.
Qed.

Lemma ID_MAPPING_nonempty (k v : str) : get ID_MAPPING k = Some v -> v <> [].
Proof. apply get_value_nonempty. vm_compute. reflexivity. Qed.

Lemma override_nonempty (prefix w : str) : override prefix = Some w -> w <> [].
Proof.
  unfold override.
  repeat match goal with
         | |- context [if ?b then _ else _] => destruct b
         end; intros [= <-]; discriminate.
Qed.

(** The table [MANUAL_MAP] holds nothing the chain does not: whichever of
    the two is read as the override mapping, the chain decides. *)
Lemma MANUAL_MAP_in_override (k v : str) :
  get MANUAL_MAP k = Some v -> override k = Some v.
Proof.
  unfold MANUAL_MAP. cbn [get].
  repeat match goal with
         | |- context [if eqb k ?x then _ else _] =>
             let E := fresh "E" in
             destruct (eqb k x) eqn:E;
             [apply eqb_eq in E; subst k; intros [= <-]; reflexivity|]
         end.
  discriminate.
Qed.

Lemma resolve_primary (prefix v : str) :
  get ID_MAPPING prefix = Some v -> resolve prefix = v.
Proof.
  intros H. pose proof (ID_MAPPING_nonempty _ H) as Hv.
  unfold resolve. rewrite H.
  destruct v as [|c r]; [congruence|]. reflexivity.
Qed.

Lemma resolve_override (prefix w : str) :
  get ID_MAPPING prefix = None -> override prefix = Some w ->
  resolve prefix = w.
Proof.
  intros H Ho. pose proof (override_nonempty _ Ho) as Hw.
  unfold resolve. rewrite H, Ho. simpl.
  destruct w as [|c r]; [congruence|]. reflexivity.
Qed.

Lemma resolve_fallback (prefix : str) :
  get ID_MAPPING prefix = None -> override prefix = None ->
  resolve prefix = fallback prefix.
Proof.
  intros H Ho. unfold resolve. rewrite H, Ho. reflexivity.
Qed.

(** C3. The primary table is consulted first: a prefix it holds resolves
    to the table's value, whatever the override chain would assign; the
    chain's value is returned only for a prefix the table lacks. The
    prefixes 25 and 26 are in both and resolve to the table's
    25_theater_foh and 26_stage, not to the chain's 26_stage and
    28_fair. *)
Theorem resolve_primary_first :
  (forall prefix v w,
     get ID_MAPPING prefix = Some v -> override prefix = Some w ->
     resolve prefix = v) /\
  (forall prefix w,
     override prefix = Some w ->
     (resolve prefix = w <-> get ID_MAPPING prefix = None
                              \/ get ID_MAPPING prefix = Some w)) /\
  (override (py "25") = Some (py "26_stage") /\
   resolve (py "25") = py "25_theater_foh" /\
   resolve (py "25") <> py "26_stage") /\
  (override (py "26") = Some (py "28_fair") /\
   resolve (py "26") = py "26_stage" /\
   resolve (py "26") <> py "28_fair").
Proof.
  split; [|split].
  - intros prefix v w H _. now apply resolve_primary.
  - intros prefix w Ho. split.
    + intros E. destruct (get ID_MAPPING prefix) as [v|] eqn:H; [|now left].
      right. rewrite (resolve_primary _ H) in E. now subst.
    + intros [H | H]; [now apply resolve_override | now apply resolve_primary].
  - split; (split; [reflexivity | split; [reflexivity | vm_compute; discriminate]]).
Qed.

Lemma resolve_primary_first_witness :
  get ID_MAPPING (py "26") = Some (py "26_stage") /\
  override (py "26") = Some (py "28_fair") /\
  resolve (py "26") = py "26_stage".
Proof.
  split; [reflexivity|]. split; [reflexivity|].
  apply (proj1 resolve_primary_first (py "26") (py "26_stage") (py "28_fair"));
    reflexivity.
Defined.

(** C4, as the specification states it, fails: the prefix 30 does not
    resolve to the synthetic identifier. *)
Lemma resolve_30_not_synthetic : resolve (py "30") <> py "profile_30".
Proof. vm_compute. discriminate. Qed.

(** C4, amended. The prefix 30 is absent from the primary table and the
    override chain has a branch for it: it resolves to
    30_library_stack_closed, which is not its synthetic identifier. *)
Theorem resolve_30_override :
  get ID_MAPPING (py "30") = None /\
  override (py "30") = Some (py "30_library_stack_closed") /\
  resolve (py "30") = py "30_library_stack_closed" /\
  resolve (py "30") <> fallback (py "30").
Proof.
  split; [reflexivity|]. split; [reflexivity|]. split; [reflexivity|].
  vm_compute. discriminate.
Qed.

(** C7. A prefix that neither the primary table nor the override chain
    holds resolves to profile_ followed by the prefix with every dot
    replaced by an underscore, so 99.5 gives profile_99_5; and the
    resolver, a total function, returns a non-empty string for every
    prefix. *)
Theorem resolve_total :
  (forall prefix,
     get ID_MAPPING prefix = None -> override prefix = None ->
     resolve prefix = py "profile_" ++ dots_to_underscores prefix) /\
  resolve (py "99.5") = py "profile_99_5" /\
  (forall prefix, resolve prefix <> []).
Proof.
  split; [|split].
  - intros prefix H Ho. rewrite (resolve_fallback _ H Ho).
    unfold fallback, dots_to_underscores.
    now rewrite (replace_char_map dot underscore).
  - reflexivity.
  - intros prefix. unfold resolve.
    match goal with
    | |- match ?k with _ => _ end <> [] => destruct k as [[|c r]|]
    end; discriminate.
Qed.

Lemma resolve_total_witness :
  get ID_MAPPING (py "99.5") = None /\
  override (py "99.5") = None /\
  resolve (py "99.5") = py "profile_" ++ dots_to_underscores (py "99.5").
Proof.
  split; [reflexivity|]. split; [reflexivity|].
  apply (proj1 resolve_total (py "99.5")); reflexivity.
Defined.

(** ** One row *)

Lemma index_nth {A} (l : list A) (i : nat) (d : A) :
  i < List.length l -> index l i = inl (nth i l d).
Proof.
  intros H. unfold index.
  destruct (nth_error l i) as [a|] eqn:E.
  - now rewrite (nth_error_nth l i d E).
  - apply nth_error_None in E. lia.
Qed.

Lemma index_short {A} (l : list A) (i : nat) :
  List.length l <= i -> index l i = inr IndexError.
Proof.
  intros H. unfold index. apply nth_error_None in H. now rewrite H.
Qed.

Lemma index_cases {A} (l : list A) (i : nat) :
  (exists a, index l i = inl a) \/ index l i = inr IndexError.
Proof.
  unfold index. destruct (nth_error l i) as [a|]; [left; now exists a | now right].
Qed.

Lemma row_profile_blank (row : list str) :
  blank row = true -> row_profile row = inl None.
Proof.
  destruct row as [|c r]; [reflexivity|]. intros H.
  unfold blank in H. unfold row_profile. now rewrite H.
Qed.

(** A row with a first cell and 28 cells or more gives the record of the
    field table. *)
Lemma row_profile_wide (row : list str) :
  blank row = false -> 28 <= List.length row ->
  row_profile row = inl (Some (profile_of_cells row)).
Proof.
  intros Hb Hl. destruct row as [|c r]; [discriminate|]. simpl in Hb.
  unfold row_profile. rewrite Hb.
  rewrite !(fun i => @index_nth _ (c :: r) i []) by lia.
  cbv beta iota delta [bind ret].
  destruct (split_before space (nth 0 (c :: r) [])) as [ps E].
  rewrite E. reflexivity.
Qed.

(** A row with a first cell and fewer than 28 cells raises. *)
Lemma row_profile_short (row : list str) :
  blank row = false -> List.length row < 28 ->
  row_profile row = inr IndexError.
Proof.
  intros Hb Hl. destruct row as [|c r]; [discriminate|]. simpl in Hb.
  unfold row_profile. rewrite Hb.
  rewrite (@index_short _ (c :: r) 27) by lia.
  cbv beta iota delta [bind].
  repeat match goal with
         | |- match index ?l ?i with inl _ => _ | inr _ => _ end = _ =>
             let a := fresh "a" in
             destruct (index_cases l i) as [[a ->] | ->];
             cbv beta iota; [|reflexivity]
         end.
  reflexivity.
Qed.

Lemma row_profile_cases (row : list str) :
  row_profile row =
    if blank row then inl None
    else if 28 <=? List.length row then inl (Some (profile_of_cells row))
         else inr IndexError.
Proof.
  destruct (blank row) eqn:Hb; [now apply row_profile_blank|].
  destruct (Nat.leb_spec 28 (List.length row)).
  - now apply row_profile_wide.
  - now apply row_profile_short.
Qed.

(** C2, as the specification states it, fails: a row with a non-empty
    first cell and no other cell raises [IndexError]. *)
Lemma row_profile_one_cell_raises :
  blank [py "01 Office"] = false /\
  row_profile [py "01 Office"] = inr IndexError /\
  ~ (exists p, row_profile [py "01 Office"] = inl (Some p)).
Proof.
  split; [reflexivity|]. split; [reflexivity|].
  intros [p H]. discriminate H.
Qed.

(** C2, amended. A row with a non-empty first cell and at least 28 cells
    gives exactly one record, the one of the field table, whatever its
    numeric and time cells hold, and raises nothing; with fewer than 28
    cells it raises [IndexError]. *)
Theorem row_profile_total_from_28_cells (row : list str) :
  blank row = false ->
  (28 <= List.length row ->
   row_profile row = inl (Some (profile_of_cells row))) /\
  (List.length row < 28 -> row_profile row = inr IndexError).
Proof.
  intros Hb. split; intros Hl.
  - now apply row_profile_wide.
  - now apply row_profile_short.
Qed.

Lemma row_profile_total_from_28_cells_witness :
  blank (scenario_cells ++ [py "garbage"]) = false /\
  28 <= List.length (scenario_cells ++ [py "garbage"]) /\
  row_profile (scenario_cells ++ [py "garbage"]) =
    inl (Some (profile_of_cells (scenario_cells ++ [py "garbage"]))).
Proof.
  split; [reflexivity|]. split; [vm_compute; lia|].
  apply (proj1 (row_profile_total_from_28_cells
                  (scenario_cells ++ [py "garbage"]) eq_refl)).
  vm_compute. lia.
Defined.

Lemma nth_error_nth_eq {A} (l1 l2 : list A) (i : nat) (d : A) :
  nth_error l1 i = nth_error l2 i -> nth i l1 d = nth i l2 d.
Proof.
  intros H. rewrite <- !nth_default_eq. unfold nth_default. now rewrite H.
Qed.

(** C9. Two rows of at least 28 cells that agree on every cell but the
    cells 9 and 14 give the same result: no field of the record reads
    those two cells. *)
Theorem unused_cells_9_14 (r1 r2 : list str) :
  28 <= List.length r1 -> 28 <= List.length r2 ->
  (forall i, i <> 9 -> i <> 14 -> nth_error r1 i = nth_error r2 i) ->
  row_profile r1 = row_profile r2.
Proof.
  intros H1 H2 H.
  assert (Hn : forall i, i <> 9 -> i <> 14 -> nth i r1 [] = nth i r2 []).
  { intros i H9 H14. apply nth_error_nth_eq. now apply H. }
  assert (Hb : blank r1 = blank r2).
  { destruct r1 as [|a1 t1]; [now apply Nat.nle_succ_0 in H1|].
    destruct r2 as [|a2 t2]; [now apply Nat.nle_succ_0 in H2|].
    assert (E : Some a1 = Some a2) by (apply (H 0); discriminate).
    now inversion E. }
  rewrite !row_profile_cases, Hb.
  destruct (blank r2); [reflexivity|].
  apply Nat.leb_le in H1, H2. rewrite H1, H2.
  do 2 f_equal. unfold profile_of_cells.
  rewrite !Hn by lia. reflexivity.
Qed.

Lemma unused_cells_9_14_witness :
  row_profile (scenario_cells ++ [py "5"]) =
  row_profile
    (firstn 9 scenario_cells ++ [py "7"] ++ firstn 4 (skipn 10 scenario_cells)
     ++ [py "0.5"] ++ skipn 15 scenario_cells ++ [py "5"]).
Proof.
  apply unused_cells_9_14.
  - vm_compute. lia.
  - vm_compute. lia.
  - intros i H9 H14.
    do 28 (destruct i as [|i];
           [first [vm_compute; reflexivity | exfalso; auto]|]).
    vm_compute. reflexivity.
Defined.

Lemma contains_app_sep (sep : N) (seg rest : str) :
  contains sep (seg ++ sep :: rest) = true.
Proof.
  apply contains_In, in_or_app. right. now left.
Qed.

Lemma parse_time_segment (seg rest : str) (n : Z) :
  contains colon seg = false -> int seg = Some n ->
  parse_time (seg ++ colon :: rest) = n.
Proof.
  intros Hc Hi. rewrite parse_time_before by apply contains_app_sep.
  now rewrite before_app, Hi.
Qed.

(** C10. [parse_time] checks no range: 99:00 gives 99 and -5:30 gives
    -5, and whatever integer [int] reads in the segment before the first
    colon is returned as it is. A row with a first cell and 28 cells or
    more always gives a record, whose usageHoursStart and usageHoursEnd
    are these integers for the cells 1 and 2, whatever their size and
    sign; the run on a row with 99:00 and -5:30 prints the entry with the
    hours 99 and -5. *)
Theorem hours_not_range_checked :
  parse_time (py "99:00") = 99%Z /\
  parse_time (py "-5:30") = (-5)%Z /\
  (forall seg rest n,
     contains colon seg = false -> int seg = Some n ->
     parse_time (seg ++ colon :: rest) = n) /\
  (forall row seg1 rest1 n1 seg2 rest2 n2,
     blank row = false -> 28 <= List.length row ->
     nth_error row 1 = Some (seg1 ++ colon :: rest1) ->
     nth_error row 2 = Some (seg2 ++ colon :: rest2) ->
     contains colon seg1 = false -> int seg1 = Some n1 ->
     contains colon seg2 = false -> int seg2 = Some n2 ->
     exists p,
       row_profile row = inl (Some p) /\
       Profile.usageHoursStart p = n1 /\
       Profile.usageHoursEnd p = n2) /\
  (forall row p,
     row_profile row = inl (Some p) ->
     exists c1 c2,
       nth_error row 1 = Some c1 /\ nth_error row 2 = Some c2 /\
       Profile.usageHoursStart p = parse_time c1 /\
       Profile.usageHoursEnd p = parse_time c2) /\
  (exists p,
     generate_ts hours_text = inl [p] /\
     emitted hours_text = [p] /\
     Profile.usageHoursStart p = 99%Z /\
     Profile.usageHoursEnd p = (-5)%Z).
Proof.
  split; [reflexivity|]. split; [reflexivity|].
  split; [exact parse_time_segment|]. split; [|split].
  - intros row seg1 rest1 n1 seg2 rest2 n2 Hb Hl H1 H2 Hc1 Hi1 Hc2 Hi2.
    exists (profile_of_cells row).
    split; [now apply row_profile_wide|].
    unfold profile_of_cells.
    cbv beta iota zeta delta [Profile.usageHoursStart Profile.usageHoursEnd].
    assert (E1 : nth 1 row [] = seg1 ++ colon :: rest1)
      by exact (nth_error_nth _ _ _ H1).
    assert (E2 : nth 2 row [] = seg2 ++ colon :: rest2)
      by exact (nth_error_nth _ _ _ H2).
    rewrite E1, E2.
    split; now apply parse_time_segment.
  - intros row p. rewrite row_profile_cases.
    destruct (blank row); [discriminate|].
    destruct (Nat.leb_spec 28 (List.length row)) as [Hl|Hl]; [|discriminate].
    intros [= <-].
    exists (nth 1 row []), (nth 2 row []).
    split; [apply nth_error_nth'; lia|].
    split; [apply nth_error_nth'; lia|].
    split; reflexivity.
  - exists (profile_of_cells hours_row).
    assert (G : generate_ts hours_text = inl [profile_of_cells hours_row])
      by (vm_compute; reflexivity).
    split; [exact G|]. split; [unfold emitted; now rewrite G|].
    split; reflexivity.
Qed.

Lemma hours_not_range_checked_witness :
  blank hours_row = false /\ 28 <= List.length hours_row /\
  exists p,
    row_profile hours_row = inl (Some p) /\
    Profile.usageHoursStart p = 99%Z /\
    Profile.usageHoursEnd p = (-5)%Z.
Proof.
  assert (Hl : 28 <= List.length hours_row) by (vm_compute; lia).
  split; [reflexivity|]. split; [exact Hl|].
  apply (proj1 (proj2 (proj2 (proj2 hours_not_range_checked)))
           hours_row (py "99") (py "00") 99%Z (py "-5") (py "30") (-5)%Z);
    solve [reflexivity | exact Hl].
Defined.

(** ** The loop and the whole run *)

Lemma loop_cases (rows : list (list str)) (acc : list Profile.t) :
  loop rows acc =
    if forallb readable rows
    then inl (acc ++ List.map profile_of_cells
                       (filter (fun r => negb (blank r)) rows))
    else inr IndexError.
Proof.
  revert acc. induction rows as [|row rows IH]; intros acc.
  - simpl. now rewrite app_nil_r.
  - cbn [loop forallb filter]. rewrite row_profile_cases. unfold readable at 1.
    destruct (blank row); cbn [bind orb negb andb].
    + apply IH.
    + destruct (28 <=? List.length row); cbn [bind andb]; [|reflexivity].
      rewrite IH. destruct (forallb readable rows); [|reflexivity].
      cbn [List.map]. now rewrite <- app_assoc.
Qed.

Lemma filter_not_length (A : Type) (p : A -> bool) (l : list A) :
  List.length (filter (fun x => negb (p x)) l) <= List.length l /\
  (existsb p l = true ->
   List.length (filter (fun x => negb (p x)) l) < List.length l).
Proof.
  induction l as [|a l [IH1 IH2]]; simpl.
  - split; [lia | discriminate].
  - destruct (p a); simpl.
    + split; [lia | intros _; lia].
    + split; [lia | intros H; specialize (IH2 H); lia].
Qed.

Lemma emitted_cases (text : str) :
  emitted text = [] \/
  emitted text =
    List.map profile_of_cells
      (filter (fun r => negb (blank r)) (data_rows text)).
Proof.
  unfold emitted, generate_ts, data_rows, profiles_of.
  destruct (Csv.reader (TextFile.lines text)) as [[|header rows] [e|]];
    try (now left).
  - cbn [fst tl]. rewrite loop_cases.
    destruct (forallb readable rows); now left.
  - cbn [fst tl]. rewrite loop_cases.
    destruct (forallb readable rows); [now right | now left].
Qed.

(** When the reader ends normally and every data row is blank or has 28
    cells or more, the run succeeds with the records of the rows that are
    not blank, in order. *)
Lemma generate_ts_readable (text : str) (header : list str)
  (rows : list (list str)) :
  Csv.reader (TextFile.lines text) = (header :: rows, None) ->
  forallb readable rows = true ->
  generate_ts text =
    inl (List.map profile_of_cells (filter (fun r => negb (blank r)) rows)).
Proof.
  intros Hr Ha. unfold generate_ts, profiles_of. rewrite Hr, loop_cases, Ha.
  reflexivity.
Qed.

(** C8. A data row without a first cell or with an empty one gives no
    record: the loop goes on as if the row were not there. The printed
    table therefore has at most as many entries as the input has data
    rows, and fewer when one of them is blank. *)
Theorem blank_rows_skipped :
  (forall row, blank row = true -> row_profile row = inl None) /\
  (forall row rest acc,
     blank row = true -> loop (row :: rest) acc = loop rest acc) /\
  (forall text,
     List.length (emitted text) <= List.length (data_rows text)) /\
  (forall text,
     existsb blank (data_rows text) = true ->
     List.length (emitted text) < List.length (data_rows text)) /\
  (forall text header rows,
     Csv.reader (TextFile.lines text) = (header :: rows, None) ->
     forallb readable rows = true ->
     List.length (emitted text) + List.length (filter blank rows) =
       List.length rows).
Proof.
  split; [exact row_profile_blank|]. split; [|split; [|split]].
  - intros row rest acc Hb. cbn [loop]. now rewrite (row_profile_blank _ Hb).
  - intros text. destruct (emitted_cases text) as [-> | ->].
    + simpl. lia.
    + rewrite length_map. apply filter_not_length.
  - intros text Hb. destruct (emitted_cases text) as [-> | ->].
    + destruct (data_rows text); [discriminate | simpl; lia].
    + rewrite length_map. now apply filter_not_length.
  - intros text header rows Hr Ha. unfold emitted.
    rewrite (generate_ts_readable _ Hr Ha), length_map.
    rewrite <- (filter_length blank rows). lia.
Qed.

Lemma blank_rows_skipped_witness :
  existsb blank (data_rows (py "h" ++ [LF] ++ py ",x" ++ [LF])) = true /\
  List.length (emitted (py "h" ++ [LF] ++ py ",x" ++ [LF])) <
  List.length (data_rows (py "h" ++ [LF] ++ py ",x" ++ [LF])).
Proof.
  split; [reflexivity|].
  apply (proj1 (proj2 (proj2 (proj2 blank_rows_skipped)))). reflexivity.
Defined.

(** ** The scenario of the specification *)

Lemma loop_one_wide (row : list str) :
  blank row = false -> 28 <= List.length row ->
  loop [row] [] = inl [profile_of_cells row].
Proof.
  intros Hb Hl. cbn [loop]. now rewrite (row_profile_wide _ Hb Hl).
Qed.

Lemma loop_one_short (row : list str) :
  blank row = false -> List.length row < 28 ->
  loop [row] [] = inr IndexError.
Proof.
  intros Hb Hl. cbn [loop]. now rewrite (row_profile_short _ Hb Hl).
Qed.

Lemma scenario_cells_short :
  blank scenario_cells = false /\ List.length scenario_cells = 27.
Proof. split; vm_compute; reflexivity. Qed.

Lemma scenario_cells_wide (last : str) :
  blank (scenario_cells ++ [last]) = false /\
  List.length (scenario_cells ++ [last]) = 28.
Proof. split; vm_compute; reflexivity. Qed.

Lemma scenario_reader :
  Csv.reader (TextFile.lines (scenario (py "Profile"))) =
    ([[py "Profile"]; scenario_cells], None).
Proof. vm_compute. reflexivity. Qed.

Lemma scenario_wide_reader :
  Csv.reader (TextFile.lines (scenario_wide (py "Profile") (py "0"))) =
    ([[py "Profile"]; scenario_cells ++ [py "0"]], None).
Proof. vm_compute. reflexivity. Qed.

Lemma scenario_raises (header : list str) :
  profiles_of ([header; scenario_cells], None) = inr IndexError.
Proof.
  destruct scenario_cells_short as [Hb Hl].
  unfold profiles_of. rewrite (loop_one_short _ Hb); [reflexivity|].
  rewrite Hl. lia.
Qed.

Lemma scenario_wide_record (header : list str) (last : str) :
  profiles_of ([header; scenario_cells ++ [last]], None) =
    inl [profile_of_cells (scenario_cells ++ [last])].
Proof.
  destruct (scenario_cells_wide last) as [Hb Hl].
  unfold profiles_of. rewrite (loop_one_wide _ Hb); [reflexivity|].
  rewrite Hl. lia.
Qed.

(** C1, as the specification states it, fails: the run on the two lines
    prints no entry at all, and none keyed 22_1_workshop_medium. *)
Lemma scenario_no_medium_entry :
  ~ (exists p,
       emitted (scenario (py "Profile")) = [p] /\
       Profile.id p = py "22_1_workshop_medium" /\
       Profile.usageHoursStart p = 8%Z /\
       Profile.usageHoursEnd p = 18%Z /\
       Profile.illuminance p = Float (float_of_Z 500)).
Proof.
  intros (p & H & _). revert H.
  unfold emitted, generate_ts. rewrite scenario_reader, scenario_raises.
  discriminate.
Qed.

(** C1, amended. The data line of the scenario has 27 cells, so the run
    raises [IndexError] at the cell 27 and prints no entry, whatever the
    header. With one more cell at the end of the line the table has
    exactly one entry: it is keyed 22_1_workshop_light, its
    usageHoursStart is 8 and its usageHoursEnd 18, its illuminance is 0,
    read from the empty cell 10, and the 500 of the cell 11 is its
    workplaneHeight. *)
Theorem scenario_outcome :
  List.length scenario_cells = 27 /\
  (forall header,
     profiles_of ([header; scenario_cells], None) = inr IndexError) /\
  generate_ts (scenario (py "Profile")) = inr IndexError /\
  emitted (scenario (py "Profile")) = [] /\
  emitted (scenario_wide (py "Profile") (py "0")) =
    [profile_of_cells (scenario_cells ++ [py "0"])] /\
  (forall last,
     let p := profile_of_cells (scenario_cells ++ [last]) in
     (forall header,
        profiles_of ([header; scenario_cells ++ [last]], None) = inl [p]) /\
     Profile.id p = py "22_1_workshop_light" /\
     Profile.usageHoursStart p = 8%Z /\
     Profile.usageHoursEnd p = 18%Z /\
     Profile.illuminance p = Int 0 /\
     Profile.workplaneHeight p = Float (float_of_Z 500)).
Proof.
  split; [apply scenario_cells_short|].
  split; [exact scenario_raises|].
  split; [unfold generate_ts; now rewrite scenario_reader, scenario_raises|].
  split; [unfold emitted, generate_ts;
          now rewrite scenario_reader, scenario_raises|].
  split; [unfold emitted, generate_ts;
          now rewrite scenario_wide_reader, scenario_wide_record|].
  intros last p. split; [intros header; apply scenario_wide_record|].
  subst p. unfold profile_of_cells.
  cbv beta iota zeta delta
    [Profile.id Profile.usageHoursStart Profile.usageHoursEnd
     Profile.illuminance Profile.workplaneHeight].
  repeat split; vm_compute; reflexivity.
Qed.

(** * Further properties *)

(** ** The helpers *)

(** X1. [parse_time] reads nothing after the first colon: minutes and
    seconds change no result, so an hour is never rounded up. *)
Theorem parse_time_ignores_minutes (seg rest rest' : str) :
  contains colon seg = false ->
  parse_time (seg ++ colon :: rest) = parse_time (seg ++ colon :: rest').
Proof.
  intros H.
  rewrite !parse_time_before by apply contains_app_sep.
  now rewrite !before_app.
Qed.

Lemma parse_time_ignores_minutes_witness :
  parse_time (py "08" ++ colon :: py "00") =
  parse_time (py "08" ++ colon :: py "59:59").
Proof. apply parse_time_ignores_minutes. reflexivity. Defined.

Lemma without_separators_idem (s : str) :
  without_separators (without_separators s) = without_separators s.
Proof.
  unfold without_separators. induction s as [|c r IH]; simpl; [reflexivity|].
  destruct (negb ((c =? comma) || (c =? percent))%N) eqn:E; simpl.
  - now rewrite E, IH.
  - assumption.
Qed.

Lemma clean_num_float (s : str) :
  s <> [] ->
  clean_num s =
    match float (without_separators s) with
    | Some f => Float f
    | None => Int 0
    end.
Proof.
  destruct s as [|c r]; [congruence|]. intros _.
  unfold clean_num. cbv [falsy]. now rewrite replace_without_separators.
Qed.

Lemma clean_num_without_separators (s : str) :
  clean_num s = clean_num (without_separators s).
Proof.
  destruct s as [|c r]; [reflexivity|].
  rewrite clean_num_float by discriminate.
  destruct (without_separators (c :: r)) as [|c' r'] eqn:E; [reflexivity|].
  rewrite clean_num_float by discriminate.
  now rewrite <- E, without_separators_idem.
Qed.

(** X2. [clean_num] sees a cell only through what is left of it without
    commas and percent signs: two cells that differ in commas and percent
    signs alone, wherever these stand, give the same number. A percentage
    is therefore not scaled and the grouping of digits is not checked. *)
Theorem clean_num_separators (s t : str) :
  without_separators s = without_separators t -> clean_num s = clean_num t.
Proof.
  intros H.
  rewrite (clean_num_without_separators s), (clean_num_without_separators t).
  now rewrite H.
Qed.

Lemma clean_num_separators_witness :
  clean_num (py "1,2,34%") = clean_num (py "%12,34").
Proof. apply clean_num_separators. reflexivity. Defined.

(** ** The identifier of a prefix, as one table *)

Lemma get_app (d1 d2 : dict) (k : str) :
  get (d1 ++ d2) k =
    match get d1 k with
    | Some v => Some v
    | None => get d2 k
    end.
Proof.
  induction d1 as [|[k' v'] d1 IH]; simpl; [reflexivity|].
  now destruct (eqb k k').
Qed.

Lemma get_In (d : dict) (k v : str) : get d k = Some v -> In (k, v) d.
Proof.
  induction d as [|[k' v'] d IH]; simpl; [discriminate|].
  destruct (eqb k k') eqn:E.
  - apply eqb_eq in E. intros [= ->]. left. now subst.
  - intros H. right. now apply IH.
Qed.

Lemma override_live (prefix : str) :
  get ID_MAPPING prefix = None -> override prefix = get live_overrides prefix.
Proof.
  intros H. unfold override, live_overrides. cbn [get].
  destruct (eqb prefix (py "26")) eqn:E26.
  { apply eqb_eq in E26. subst prefix. vm_compute in H. discriminate H. }
  destruct (eqb prefix (py "27")); [reflexivity|].
  destruct (eqb prefix (py "28")); [reflexivity|].
  destruct (eqb prefix (py "29")); [reflexivity|].
  destruct (eqb prefix (py "30")); [reflexivity|].
  destruct (eqb prefix (py "25")) eqn:E25; [|reflexivity].
  apply eqb_eq in E25. subst prefix. vm_compute in H. discriminate H.
Qed.

Lemma resolve_lookup (prefix : str) :
  resolve prefix =
    match get (ID_MAPPING ++ live_overrides) prefix with
    | Some v => v
    | None => fallback prefix
    end.
Proof.
  rewrite get_app.
  destruct (get ID_MAPPING prefix) as [v|] eqn:H.
  - now apply resolve_primary.
  - destruct (get live_overrides prefix) as [w|] eqn:Ho.
    + apply resolve_override; [assumption|]. now rewrite override_live.
    + apply resolve_fallback; [assumption|]. now rewrite override_live.
Qed.

(** X3. The resolver is one lookup: the primary table followed by the
    four override branches of the prefixes 27 to 30, and the synthetic
    identifier when the lookup fails. The override branches of the
    prefixes 26 and 25 change no result. *)
Theorem resolve_single_table (prefix : str) :
  resolve prefix =
    match get (ID_MAPPING ++ live_overrides) prefix with
    | Some v => v
    | None => fallback prefix
    end.
Proof. exact (resolve_lookup prefix). Qed.

Lemma fallback_starts_with (prefix : str) :
  starts_with (py "profile_") (fallback prefix) = true.
Proof. reflexivity. Qed.

Lemma table_forall (P : str * str -> bool) (prefix v : str) :
  forallb P (ID_MAPPING ++ live_overrides) = true ->
  get (ID_MAPPING ++ live_overrides) prefix = Some v ->
  P (prefix, v) = true.
Proof.
  intros HP H. apply get_In in H.
  now apply (proj1 (forallb_forall P _) HP).
Qed.

(** X4. No prefix resolves to 28_fair, the identifier that the override
    chain and [MANUAL_MAP] give for the prefix 26; and 26 is the only
    prefix that resolves to 26_stage, the identifier the chain gives for
    the prefix 25. *)
Theorem resolve_never_28_fair :
  (forall prefix, resolve prefix <> py "28_fair") /\
  (forall prefix, resolve prefix = py "26_stage" -> prefix = py "26").
Proof.
  split; intros prefix; rewrite resolve_lookup;
    destruct (get (ID_MAPPING ++ live_overrides) prefix) as [v|] eqn:H.
  - intros ->.
    apply (table_forall (fun kv => negb (eqb (snd kv) (py "28_fair")))) in H;
      [discriminate H | vm_compute; reflexivity].
  - intros E. pose proof (fallback_starts_with prefix) as F.
    rewrite E in F. discriminate F.
  - intros ->.
    apply (table_forall
             (fun kv => implb (eqb (snd kv) (py "26_stage"))
                              (eqb (fst kv) (py "26")))) in H;
      [|vm_compute; reflexivity].
    now apply eqb_eq.
  - intros E. pose proof (fallback_starts_with prefix) as F.
    rewrite E in F. discriminate F.
Qed.

Lemma resolve_never_28_fair_witness :
  resolve (py "26") = py "26_stage" /\ py "26" = py "26".
Proof.
  assert (H : resolve (py "26") = py "26_stage") by reflexivity.
  split; [exact H|]. exact (proj2 resolve_never_28_fair (py "26") H).
Defined.

Lemma dots_to_underscores_inj (p q : str) :
  contains underscore p = false -> contains underscore q = false ->
  dots_to_underscores p = dots_to_underscores q -> p = q.
Proof.
  unfold contains, dots_to_underscores.
  revert q. induction p as [|a p IH]; intros [|b q] Hp Hq E;
    try discriminate E; [reflexivity|].
  cbn [existsb] in Hp, Hq. cbn [List.map] in E. injection E as Hh Ht.
  apply orb_false_elim in Hp as [Ha Hp], Hq as [Hb Hq].
  apply N.eqb_neq in Ha, Hb.
  f_equal; [|now apply IH].
  destruct (N.eqb_spec a dot), (N.eqb_spec b dot); congruence.
Qed.

Lemma resolve_eq_prefix (p q : str) :
  contains underscore p = false -> contains underscore q = false ->
  resolve p = resolve q -> p = q.
Proof.
  intros Hp Hq. rewrite !resolve_lookup.
  set (known := ID_MAPPING ++ live_overrides).
  assert (Hinj : forallb (fun a => forallb (fun b =>
                   implb (eqb (snd a) (snd b)) (eqb (fst a) (fst b)))
                   known) known = true) by (vm_compute; reflexivity).
  assert (Hnp : forallb (fun a => negb (starts_with (py "profile_") (snd a)))
                  known = true) by (vm_compute; reflexivity).
  destruct (get known p) as [v|] eqn:Gp; destruct (get known q) as [w|] eqn:Gq.
  - intros <-. apply get_In in Gp, Gq.
    pose proof (proj1 (forallb_forall _ _) Hinj _ Gp) as H1.
    cbv beta in H1.
    pose proof (proj1 (forallb_forall _ _) H1 _ Gq) as H2.
    cbn [fst snd] in H2.
    replace (eqb v v) with true in H2 by (symmetry; now apply eqb_eq).
    now apply eqb_eq.
  - intros ->. apply (table_forall _ _ Hnp) in Gp. cbn [snd] in Gp.
    now rewrite fallback_starts_with in Gp.
  - intros <-. apply (table_forall _ _ Hnp) in Gq. cbn [snd] in Gq.
    now rewrite fallback_starts_with in Gq.
  - unfold fallback. intros E. apply app_inv_head in E.
    rewrite !(replace_char_map dot underscore) in E.
    now apply dots_to_underscores_inj.
Qed.

(** X5. Two different prefixes without an underscore resolve to different
    identifiers; with underscores the identifiers may collide, as for
    1.2 and 1_2. *)
Theorem resolve_injective :
  (forall p q,
     contains underscore p = false -> contains underscore q = false ->
     p <> q -> resolve p <> resolve q) /\
  (py "1.2" <> py "1_2" /\ resolve (py "1.2") = resolve (py "1_2")).
Proof.
  split; [|split; [vm_compute; discriminate | reflexivity]].
  intros p q Hp Hq Hn E. apply Hn. now apply resolve_eq_prefix.
Qed.

Lemma resolve_injective_witness :
  py "22.1" <> py "99.5" /\ resolve (py "22.1") <> resolve (py "99.5").
Proof.
  assert (H : py "22.1" <> py "99.5") by (vm_compute; discriminate).
  split; [exact H|].
  apply (proj1 resolve_injective); [reflexivity | reflexivity | exact H].
Defined.

(** ** Records and rows *)

Lemma record_fields (row : list str) (p : Profile.t) :
  row_profile row = inl (Some p) ->
  nth_error row 0 = Some (Profile.name p) /\
  Profile.name p <> [] /\
  Profile.id p = resolve (before space (Profile.name p)) /\
  nth_error row 21 = Some (Profile.humidityRequirement p).
Proof.
  rewrite row_profile_cases.
  destruct (blank row) eqn:Hb; [discriminate|].
  destruct (Nat.leb_spec 28 (List.length row)) as [Hl|Hl]; [|discriminate].
  intros [= <-]. unfold profile_of_cells.
  cbn [Profile.name Profile.id Profile.humidityRequirement].
  destruct row as [|c r]; [discriminate|]. cbn [nth nth_error].
  repeat split.
  - intros ->. discriminate Hb.
  - change (nth_error r 20 = Some (nth 20 r [])).
    apply nth_error_nth'. simpl in Hl. lia.
Qed.

(** X6. A row with a first cell and 28 cells or more gives a record, and
    in every record the name is the first cell of its row and is not
    empty, the identifier is the resolver's answer for the text of the
    name before its first space, and the humidity requirement is the cell
    21 as it stands. Rows with the same leading token therefore share one
    identifier. *)
Theorem record_id_from_name (row : list str) :
  blank row = false -> 28 <= List.length row ->
  exists p,
    row_profile row = inl (Some p) /\
    nth_error row 0 = Some (Profile.name p) /\
    Profile.name p <> [] /\
    Profile.id p = resolve (before space (Profile.name p)) /\
    nth_error row 21 = Some (Profile.humidityRequirement p).
Proof.
  intros Hb Hl. exists (profile_of_cells row).
  assert (H : row_profile row = inl (Some (profile_of_cells row)))
    by now apply row_profile_wide.
  split; [exact H | now apply record_fields].
Qed.

Lemma record_id_from_name_witness :
  let row := scenario_cells ++ [py "x"] in
  exists p,
    row_profile row = inl (Some p) /\
    nth_error row 0 = Some (Profile.name p) /\
    Profile.name p <> [] /\
    Profile.id p = resolve (before space (Profile.name p)) /\
    nth_error row 21 = Some (Profile.humidityRequirement p).
Proof.
  intros row. apply record_id_from_name; vm_compute; [reflexivity | lia].
Defined.

(** X7. Cells beyond the cell 27 are never read: a row of 28 cells or
    more gives the same result with further cells appended. *)
Theorem trailing_cells_ignored (row extra : list str) :
  28 <= List.length row -> row_profile (row ++ extra) = row_profile row.
Proof.
  intros Hl. rewrite !row_profile_cases.
  assert (Hb : blank (row ++ extra) = blank row).
  { destruct row; [now apply Nat.nle_succ_0 in Hl | reflexivity]. }
  rewrite Hb. destruct (blank row); [reflexivity|].
  assert (Hl' : 28 <= List.length (row ++ extra))
    by (rewrite length_app; lia).
  apply Nat.leb_le in Hl'. rewrite Hl'.
  pose proof Hl as Hl2. apply Nat.leb_le in Hl2. rewrite Hl2.
  do 2 f_equal. unfold profile_of_cells.
  rewrite !(fun i => @app_nth1 _ row extra [] i) by lia. reflexivity.
Qed.

Lemma trailing_cells_ignored_witness :
  row_profile ((scenario_cells ++ [py "5"]) ++ [py "more"; py "cells"]) =
  row_profile (scenario_cells ++ [py "5"]).
Proof. apply trailing_cells_ignored. vm_compute. lia. Defined.

(** ** The whole run *)

Lemma unreadable_in (rows : list (list str)) (row : list str) :
  In row rows -> blank row = false -> List.length row < 28 ->
  forallb readable rows = false.
Proof.
  intros Hi Hb Hl.
  destruct (forallb readable rows) eqn:E; [|reflexivity].
  pose proof (proj1 (forallb_forall _ _) E _ Hi) as H.
  unfold readable in H. rewrite Hb in H. cbn [orb] in H.
  apply Nat.leb_le in H. lia.
Qed.

(** X8. One data row with a first cell and fewer than 28 cells, wherever
    it stands, ends the run with [IndexError]: no entry is printed, not
    even for the rows before it. *)
Theorem short_row_aborts (text : str) (row : list str) :
  In row (data_rows text) -> blank row = false -> List.length row < 28 ->
  generate_ts text = inr IndexError /\ emitted text = [].
Proof.
  intros Hi Hb Hl.
  assert (G : generate_ts text = inr IndexError).
  { revert Hi. unfold data_rows, generate_ts, profiles_of.
    destruct (Csv.reader (TextFile.lines text)) as [[|header rows] e];
      cbn [fst tl]; [intros []|].
    intros Hi. rewrite loop_cases, (unreadable_in _ _ Hi Hb Hl). reflexivity. }
  split; [exact G|]. unfold emitted. now rewrite G.
Qed.

Lemma short_row_aborts_witness :
  let text := scenario_wide (py "Profile") (py "0") ++ py "44 Home,07:00" in
  In [py "44 Home"; py "07:00"] (data_rows text) /\
  generate_ts text = inr IndexError /\ emitted text = [].
Proof.
  intros text.
  assert (Hi : In [py "44 Home"; py "07:00"] (data_rows text))
    by (vm_compute; right; left; reflexivity).
  split; [exact Hi|].
  apply (@short_row_aborts text [py "44 Home"; py "07:00"] Hi);
    [reflexivity | vm_compute; lia].
Defined.

Lemma generate_ts_cases (text : str) :
  generate_ts text =
    match Csv.reader (TextFile.lines text) with
    | ([], None) => inr StopIteration
    | ([], Some e) => inr e
    | (_ :: rows, e) =>
        if forallb readable rows then
          match e with
          | None => inl (List.map profile_of_cells
                           (filter (fun r => negb (blank r)) rows))
          | Some x => inr x
          end
        else inr IndexError
    end.
Proof.
  unfold generate_ts, profiles_of.
  destruct (Csv.reader (TextFile.lines text)) as [[|header rows] e];
    [reflexivity|].
  rewrite loop_cases. now destruct (forallb readable rows).
Qed.

(** X9. The run succeeds exactly when the reader yields a header and ends
    without an error and every data row is blank or has 28 cells or more;
    its result is then the records of the rows that are not blank, in the
    order of the rows. *)
Theorem generate_ts_success (text : str) (ps : list Profile.t) :
  generate_ts text = inl ps <->
  (exists header,
     Csv.reader (TextFile.lines text) = (header :: data_rows text, None)) /\
  forallb readable (data_rows text) = true /\
  ps = List.map profile_of_cells
         (filter (fun r => negb (blank r)) (data_rows text)).
Proof.
  rewrite generate_ts_cases. unfold data_rows.
  destruct (Csv.reader (TextFile.lines text)) as [[|header rows] e];
    cbn [fst tl].
  - split.
    + destruct e; discriminate.
    + intros [[h H] _]. discriminate H.
  - split.
    + destruct (forallb readable rows); [|discriminate].
      destruct e; [discriminate|]. intros [= <-].
      split; [now exists header|]. now split.
    + intros ([h H] & Ha & ->). injection H as _ ->. now rewrite Ha.
Qed.

Lemma generate_ts_success_witness :
  generate_ts (scenario_wide (py "Profile") (py "0")) =
    inl [profile_of_cells (scenario_cells ++ [py "0"])] /\
  forallb readable (data_rows (scenario_wide (py "Profile") (py "0"))) = true.
Proof.
  assert (H : generate_ts (scenario_wide (py "Profile") (py "0")) =
                inl [profile_of_cells (scenario_cells ++ [py "0"])]).
  { unfold generate_ts.
    now rewrite scenario_wide_reader, scenario_wide_record. }
  split; [exact H|].
  apply (proj1 (generate_ts_success _ _) H).
Defined.



(** ** The reader under the run *)

Lemma process_char_error (p : Csv.parser) (i : Csv.input) (e : exn) :
  Csv.parse_process_char p i = inr e -> e = CsvError.
Proof.
  unfold Csv.parse_process_char, Csv.start_field, Csv.parse_add_char, bind,
    ret, raise.
  destruct (Csv.st p), i;
    repeat match goal with
           | |- context [if ?b then _ else _] => destruct b
           end; congruence.
Qed.

Lemma process_line_error (l : str) (p : Csv.parser) (e : exn) :
  Csv.process_line p l = inr e -> e = CsvError.
Proof.
  revert p. induction l as [|c r IH]; intros p; cbn [Csv.process_line].
  - apply process_char_error.
  - destruct (Csv.parse_process_char p (Csv.Char c)) as [p'|e'] eqn:E;
      cbn [bind].
    + apply IH.
    + intros [= <-]. now apply process_char_error in E.
Qed.

Lemma process_eol_state (p p' : Csv.parser) :
  Csv.parse_process_char p Csv.EOL = inl p' ->
  Csv.st p' = Csv.START_RECORD \/ Csv.st p' = Csv.IN_QUOTED_FIELD.
Proof.
  unfold Csv.parse_process_char, Csv.start_field, ret.
  destruct (Csv.st p) eqn:E; intros [= <-]; cbn [Csv.st Csv.set_state];
    auto.
Qed.

Lemma process_line_state (l : str) (p p' : Csv.parser) :
  Csv.process_line p l = inl p' ->
  Csv.st p' = Csv.START_RECORD \/ Csv.st p' = Csv.IN_QUOTED_FIELD.
Proof.
  revert p. induction l as [|c r IH]; intros p; cbn [Csv.process_line].
  - apply process_eol_state.
  - destruct (Csv.parse_process_char p (Csv.Char c)) as [p1|e]; cbn [bind];
      [apply IH | discriminate].
Qed.

Lemma records_error (ls : list str) (p : Csv.parser) (e : exn) :
  snd (Csv.records p ls) = Some e -> e = CsvError.
Proof.
  revert p. induction ls as [|l ls IH]; intros p; cbn [Csv.records].
  - destruct (negb (falsy (Csv.field p))
              || Csv.state_eqb (Csv.st p) Csv.IN_QUOTED_FIELD)%bool;
      discriminate.
  - destruct (Csv.process_line p l) as [p'|e'] eqn:E.
    + destruct (Csv.state_eqb (Csv.st p') Csv.START_RECORD).
      * specialize (IH Csv.parse_reset).
        destruct (Csv.records Csv.parse_reset ls) as [rows e0]. exact IH.
      * apply IH.
    + cbn [snd]. intros [= <-]. now apply process_line_error in E.
Qed.

Lemma records_in_quotes (ls : list str) (p : Csv.parser) :
  Csv.st p = Csv.IN_QUOTED_FIELD -> Csv.records p ls <> ([], None).
Proof.
  revert p. induction ls as [|l ls IH]; intros p Hq; cbn [Csv.records].
  - rewrite Hq, orb_true_r. discriminate.
  - destruct (Csv.process_line p l) as [p'|e'] eqn:E; [|discriminate].
    destruct (process_line_state _ _ E) as [H | H]; rewrite H; cbn.
    + destruct (Csv.records Csv.parse_reset ls). discriminate.
    + now apply IH.
Qed.

Lemma reader_yields (l : str) (ls : list str) :
  Csv.reader (l :: ls) <> ([], None).
Proof.
  unfold Csv.reader. cbn [Csv.records].
  destruct (Csv.process_line Csv.parse_reset l) as [p'|e'] eqn:E;
    [|discriminate].
  destruct (process_line_state _ _ E) as [H | H]; rewrite H; cbn.
  - destruct (Csv.records Csv.parse_reset ls). discriminate.
  - now apply records_in_quotes.
Qed.

Lemma lines_from_nil (s cur : str) :
  TextFile.lines_from cur s = [] -> s = [] /\ cur = [].
Proof.
  destruct s as [|c r]; cbn [TextFile.lines_from].
  - destruct cur; [auto | discriminate].
  - destruct (c =? LF)%N; [discriminate|].
    destruct (c =? CR)%N.
    + destruct r as [|c' r']; [discriminate|].
      destruct (c' =? LF)%N; discriminate.
    + revert cur c. induction r as [|c2 r IH]; intros cur c;
        cbn [TextFile.lines_from]; [discriminate|].
      destruct (c2 =? LF)%N; [discriminate|].
      destruct (c2 =? CR)%N.
      * destruct r as [|c' r']; [discriminate|].
        destruct (c' =? LF)%N; discriminate.
      * intros H. now apply IH in H.
Qed.

(** X11. [StopIteration], raised by [next(reader)] when there is no
    header, ends the run for the empty file and for no other: any text,
    be it one line break, gives the reader a first row. *)
Theorem stop_iteration_iff_empty (text : str) :
  generate_ts text = inr StopIteration <-> text = [].
Proof.
  split; [|intros ->; reflexivity].
  rewrite generate_ts_cases.
  destruct (Csv.reader (TextFile.lines text)) as [[|h rows] [e|]] eqn:R.
  - intros [= ->]. unfold Csv.reader in R.
    pose proof (records_error (TextFile.lines text) Csv.parse_reset) as H.
    rewrite R in H. specialize (H _ eq_refl). discriminate H.
  - intros _. destruct (TextFile.lines text) as [|l ls] eqn:L.
    + now apply lines_from_nil in L.
    + now apply reader_yields in R.
  - destruct (forallb readable rows); [|discriminate].
    intros [= ->]. unfold Csv.reader in R.
    pose proof (records_error (TextFile.lines text) Csv.parse_reset) as H.
    rewrite R in H. specialize (H _ eq_refl). discriminate H.
  - destruct (forallb readable rows); discriminate.
Qed.

Lemma stop_iteration_iff_empty_witness :
  generate_ts [] = inr StopIteration.
Proof. apply (proj2 (stop_iteration_iff_empty [])). reflexivity. Defined.

Lemma line_ok_body (b : str) :
  Forall (fun c => c <> CR /\ c <> LF) b ->
  line_ok b = true /\ line_ok (b ++ [LF]) = true.
Proof.
  induction 1 as [|c r [Hcr Hlf] Hr [IH1 IH2]]; [split; reflexivity|].
  apply N.eqb_neq in Hcr, Hlf.
  cbn [line_ok app]. rewrite Hcr, Hlf, IH1, IH2.
  split; [now destruct r | now destruct (r ++ [LF])].
Qed.

Lemma lines_from_ok (n : nat) :
  forall s cur,
    List.length s <= n ->
    Forall (fun c => c <> CR /\ c <> LF) cur ->
    forallb line_ok (TextFile.lines_from cur s) = true /\
    List.length (List.concat (TextFile.lines_from cur s))
      <= List.length cur + List.length s.
Proof.
  induction n as [|n IH]; intros s cur Hn Hc.
  - destruct s; [|simpl in Hn; lia]. cbn [TextFile.lines_from].
    destruct cur as [|a cur']; [split; [reflexivity | simpl; lia]|].
    cbn [forallb List.concat]. rewrite app_nil_r, length_rev, andb_true_r.
    split; [|lia]. apply line_ok_body. now apply Forall_rev.
  - destruct s as [|c r].
    { apply IH; [simpl; lia | assumption]. }
    assert (Hline : line_ok (rev (LF :: cur)) = true).
    { cbn [rev]. apply line_ok_body. now apply Forall_rev. }
    assert (Hlen : List.length (rev (LF :: cur)) = S (List.length cur))
      by now rewrite length_rev.
    cbn [List.length] in Hn. cbn [TextFile.lines_from].
    destruct (N.eqb_spec c LF) as [->|Hlf].
    { destruct (IH r [] ltac:(lia) (Forall_nil _)) as [H1 H2].
      cbn [forallb List.concat]. rewrite Hline, H1, length_app, Hlen.
      split; [reflexivity | simpl in *; lia]. }
    destruct (N.eqb_spec c CR) as [->|Hcr].
    { destruct r as [|c' r'].
      - cbn [forallb List.concat]. rewrite Hline, app_nil_r, Hlen.
        split; [reflexivity | simpl; lia].
      - destruct (c' =? LF)%N.
        + destruct (IH r' [] ltac:(simpl in Hn; lia) (Forall_nil _))
            as [H1 H2].
          cbn [forallb List.concat]. rewrite Hline, H1, length_app, Hlen.
          split; [reflexivity | simpl in *; lia].
        + destruct (IH (c' :: r') [] ltac:(simpl in *; lia) (Forall_nil _))
            as [H1 H2].
          cbn [forallb List.concat]. rewrite Hline, H1, length_app, Hlen.
          split; [reflexivity | simpl in *; lia]. }
    destruct (IH r (c :: cur) ltac:(lia)) as [H1 H2].
    { constructor; [split|]; assumption. }
    split; [exact H1 | simpl in *; lia].
Qed.

Lemma add_char_ok (p : Csv.parser) (c : N) :
  (N.of_nat (List.length (Csv.field p)) < Csv.field_limit)%N ->
  Csv.parse_add_char p c =
    inl (Csv.Parser (Csv.st p) (Csv.fields p) (c :: Csv.field p)).
Proof.
  intros H. unfold Csv.parse_add_char.
  destruct (N.leb_spec Csv.field_limit (N.of_nat (List.length (Csv.field p))));
    [lia | reflexivity].
Qed.

Lemma process_char_ok (p : Csv.parser) (c : N) :
  Csv.st p <> Csv.EAT_CRNL ->
  (N.of_nat (List.length (Csv.field p)) < Csv.field_limit)%N ->
  exists p',
    Csv.parse_process_char p (Csv.Char c) = inl p' /\
    List.length (Csv.field p') <= S (List.length (Csv.field p)) /\
    (Csv.st p' = Csv.EAT_CRNL -> c = LF \/ c = CR).
Proof.
  intros Hs Hl.
  assert (Hnl : Csv.is_newline (Csv.Char c) = true -> c = LF \/ c = CR).
  { cbn [Csv.is_newline]. intros H. apply orb_true_iff in H.
    destruct H as [H|H]; apply N.eqb_eq in H; auto. }
  unfold Csv.parse_process_char, Csv.start_field.
  destruct (Csv.st p) eqn:E; try congruence;
    cbn [Csv.st Csv.set_state Csv.field Csv.fields];
    repeat match goal with
           | |- context [if ?b then _ else _] => destruct b eqn:?
           end;
    try rewrite (@add_char_ok _ _ Hl);
    try (rewrite add_char_ok by (cbn [Csv.set_state Csv.field]; exact Hl));
    cbn [bind ret Csv.st Csv.set_state Csv.field Csv.fields
         Csv.parse_save_field];
    eexists; (split; [reflexivity|]);
    cbn [Csv.st Csv.set_state Csv.field Csv.fields Csv.parse_save_field
         List.length];
    (split; [lia|]); try discriminate; try congruence; auto.
Qed.

Lemma process_eol_ok (p : Csv.parser) :
  exists p',
    Csv.parse_process_char p Csv.EOL = inl p' /\
    List.length (Csv.field p') <= List.length (Csv.field p).
Proof.
  unfold Csv.parse_process_char, Csv.start_field, ret.
  destruct (Csv.st p); eexists; (split; [reflexivity|]);
    cbn [Csv.field Csv.set_state Csv.parse_save_field List.length]; lia.
Qed.

Lemma process_line_ok (l : str) :
  forall p,
    line_ok l = true ->
    Csv.st p <> Csv.EAT_CRNL ->
    (N.of_nat (List.length (Csv.field p) + List.length l)
       <= Csv.field_limit)%N ->
    exists p',
      Csv.process_line p l = inl p' /\
      List.length (Csv.field p')
        <= List.length (Csv.field p) + List.length l.
Proof.
  induction l as [|c r IH]; intros p Hok Hs Hl; cbn [Csv.process_line].
  - destruct (process_eol_ok p) as (p' & E & H). exists p'. split; [exact E|lia].
  - cbn [line_ok] in Hok.
    apply andb_prop in Hok as [Hok Hr]. apply andb_prop in Hok as [Hcr Hlf].
    apply negb_true_iff, N.eqb_neq in Hcr.
    cbn [List.length] in Hl.
    destruct (@process_char_ok p c Hs) as (p1 & E & H1 & Hst); [lia|].
    rewrite E. cbn [bind].
    destruct r as [|c2 r2].
    + cbn [Csv.process_line].
      destruct (process_eol_ok p1) as (p' & E' & H). exists p'.
      split; [exact E' | simpl; lia].
    + apply negb_true_iff, N.eqb_neq in Hlf.
      destruct (IH p1 Hr) as (p' & E' & H).
      * intros Hc. destruct (Hst Hc); congruence.
      * cbn [List.length] in *. lia.
      * exists p'. split; [exact E' | cbn [List.length] in *; lia].
Qed.

Lemma records_ok (ls : list str) :
  forall p,
    forallb line_ok ls = true ->
    Csv.st p <> Csv.EAT_CRNL ->
    (N.of_nat (List.length (Csv.field p) + List.length (List.concat ls))
       <= Csv.field_limit)%N ->
    snd (Csv.records p ls) = None.
Proof.
  induction ls as [|l ls IH]; intros p Hok Hs Hl; cbn [Csv.records].
  - now destruct (negb (falsy (Csv.field p))
                  || Csv.state_eqb (Csv.st p) Csv.IN_QUOTED_FIELD)%bool.
  - cbn [forallb] in Hok. apply andb_prop in Hok as [Hl1 Hls].
    cbn [List.concat] in Hl. rewrite length_app in Hl.
    destruct (@process_line_ok l p Hl1 Hs) as (p' & E & H); [lia|].
    rewrite E.
    destruct (process_line_state _ _ E) as [Hst | Hst]; rewrite Hst; cbn.
    + specialize (IH Csv.parse_reset Hls).
      destruct (Csv.records Csv.parse_reset ls) as [rows e]. cbn [snd] in *.
      apply IH; [discriminate | cbn; lia].
    + apply IH; [assumption | congruence | lia].
Qed.

(** X12. For a file of at most 131072 characters the reader cannot raise:
    with the line breaks that text mode delivers its new-line error
    cannot occur, and no field can exceed the field size limit. Such a
    run can end only with the table, with [StopIteration] or with
    [IndexError]. *)
Theorem reader_never_raises (text : str) :
  (N.of_nat (List.length text) <= Csv.field_limit)%N ->
  snd (Csv.reader (TextFile.lines text)) = None /\
  generate_ts text <> inr CsvError.
Proof.
  intros Hl.
  assert (R : snd (Csv.reader (TextFile.lines text)) = None).
  { destruct (@lines_from_ok (List.length text) text [] (le_n _)
                (Forall_nil _))
      as [H1 H2].
    apply records_ok; [exact H1 | discriminate|].
    cbn [Csv.parse_reset Csv.field List.length] in *.
    fold (TextFile.lines text) in H2. lia. }
  split; [exact R|].
  rewrite generate_ts_cases.
  destruct (Csv.reader (TextFile.lines text)) as [[|h rows] e].
  - cbn [snd] in R. subst e. discriminate.
  - cbn [snd] in R. subst e. destruct (forallb readable rows); discriminate.
Qed.

Lemma reader_never_raises_witness :
  snd (Csv.reader (TextFile.lines (scenario (py "Profile")))) = None /\
  generate_ts (scenario (py "Profile")) <> inr CsvError.
Proof. apply reader_never_raises. vm_compute. discriminate. Defined.

(** ** Integers as text *)

Lemma digit_range (c : N) (d : Z) :
  digit c = Some d -> (0 <= d <= 9)%Z /\ d = Z.of_N (c - 48).
Proof.
  unfold digit.
  destruct ((48 <=? c) && (c <=? 57))%N eqn:E; [|discriminate].
  intros [= <-]. apply andb_prop in E as [E1 E2].
  apply N.leb_le in E1, E2. split; [lia | reflexivity].
Qed.

Lemma scan_digits_bound (s : str) :
  forall prev acc d v d' rest,
    (0 <= acc < 10 ^ Z.of_N d)%Z ->
    scan_digits prev acc d s = Some (v, d', rest) ->
    (0 <= v < 10 ^ Z.of_N d')%Z.
Proof.
  induction s as [|c r IH]; intros prev acc d v d' rest Ha; cbn [scan_digits].
  - destruct (prev =? underscore)%N; [discriminate|]. now intros [= <- <- <-].
  - destruct (c =? underscore)%N.
    + destruct (prev =? underscore)%N; [discriminate|]. now apply IH.
    + destruct (digit c) as [x|] eqn:D.
      * apply IH. apply digit_range in D as [D _].
        replace (Z.of_N (d + 1)) with (Z.succ (Z.of_N d)) by lia.
        rewrite Z.pow_succ_r by lia. lia.
      * destruct (prev =? underscore)%N; [discriminate|].
        now intros [= <- <- <-].
Qed.

Lemma int_bound (s : str) (n : Z) :
  int s = Some n -> (Z.abs n < 10 ^ 4300)%Z.
Proof.
  unfold int, int_of_ascii.
  destruct (sign_and_rest (lstrip (transform s))) as [neg body].
  destruct body as [|c r]; [discriminate|].
  destruct (c =? underscore)%N; [discriminate|].
  destruct (scan_digits 0 0 0 (c :: r)) as [[[v d] rest]|] eqn:E;
    [|discriminate].
  destruct (d =? 0)%N; [discriminate|].
  destruct (lstrip rest); [|discriminate].
  destruct (N.ltb_spec max_str_digits d) as [|Hd]; [discriminate|].
  intros [= <-].
  apply scan_digits_bound in E; [|simpl; lia].
  assert (H : (10 ^ Z.of_N d <= 10 ^ 4300)%Z).
  { apply Z.pow_le_mono_r; [lia|]. unfold max_str_digits in Hd. lia. }
  revert H. generalize (10 ^ 4300)%Z. intros B H.
  destruct neg; lia.
Qed.

Lemma parse_time_bound (s : str) : (Z.abs (parse_time s) < 10 ^ 4300)%Z.
Proof.
  assert (H0 : (Z.abs 0 < 10 ^ 4300)%Z).
  { apply Z.pow_pos_nonneg; lia. }
  unfold parse_time, parse_time_try.
  destruct (falsy s || negb (contains colon s))%bool; [exact H0|].
  destruct (index (split colon s) 0) as [p|e]; [|exact H0].
  destruct (int p) as [n|] eqn:E; [|exact H0].
  now apply int_bound in E.
Qed.

Lemma digits_fuel_length (fuel : nat) :
  forall n acc k,
    (1 <= k)%N -> (n < 10 ^ k)%N ->
    (N.of_nat (List.length (PyFmt.digits_fuel fuel n acc))
       <= N.of_nat (List.length acc) + k)%N.
Proof.
  induction fuel as [|f IH]; intros n acc k Hk Hn; cbn [PyFmt.digits_fuel].
  - lia.
  - destruct (N.ltb_spec n 10) as [Hlt|Hge].
    + cbn [List.length]. lia.
    + assert (Hk2 : (2 <= k)%N).
      { destruct (N.le_gt_cases 2 k) as [|Hk1]; [assumption|].
        assert (k = 1%N) by lia. subst k. simpl in Hn. lia. }
      specialize (IH (n / 10)%N ((48 + n mod 10)%N :: acc) (k - 1)%N).
      cbn [List.length] in IH.
      assert (Hdiv : (n / 10 < 10 ^ (k - 1))%N).
      { apply N.Div0.div_lt_upper_bound.
        rewrite <- N.pow_succ_r'. now replace (N.succ (k - 1)) with k by lia. }
      specialize (IH ltac:(lia) Hdiv). lia.
Qed.

Lemma str_of_int_some (z : Z) :
  (Z.abs z < 10 ^ 4300)%Z -> exists s, PyFmt.str_of_int z = Some s.
Proof.
  intros Hz. unfold PyFmt.str_of_int, PyFmt.decimal_digits.
  assert (Hn : (Z.abs_N z < 10 ^ 4300)%N).
  { apply N2Z.inj_lt. rewrite N2Z.inj_abs_N, N2Z.inj_pow. exact Hz. }
  pose proof (@digits_fuel_length (S (N.size_nat (Z.abs_N z))) (Z.abs_N z) []
                4300%N ltac:(clear; lia) Hn) as H.
  cbn [List.length] in H. clear Hz Hn.
  destruct (N.ltb_spec max_str_digits
              (N.of_nat (List.length
                 (PyFmt.digits_fuel (S (N.size_nat (Z.abs_N z)))
                    (Z.abs_N z) [])))) as [Hlt|_].
  - unfold max_str_digits in Hlt. lia.
  - eexists. reflexivity.
Qed.

Lemma digits_fuel_suffix (fuel : nat) :
  forall n acc, exists pre, PyFmt.digits_fuel fuel n acc = pre ++ acc.
Proof.
  induction fuel as [|f IH]; intros n acc; cbn [PyFmt.digits_fuel].
  - now exists [].
  - destruct (n <? 10)%N.
    + now exists [(48 + n mod 10)%N].
    + destruct (IH (n / 10)%N ((48 + n mod 10)%N :: acc)) as [pre ->].
      exists (pre ++ [(48 + n mod 10)%N]). now rewrite <- app_assoc.
Qed.

Lemma digits_fuel_chars (fuel : nat) :
  forall n acc,
    Forall (fun c => 48 <= c <= 57)%N acc ->
    Forall (fun c => 48 <= c <= 57)%N (PyFmt.digits_fuel fuel n acc).
Proof.
  induction fuel as [|f IH]; intros n acc Ha; cbn [PyFmt.digits_fuel].
  - exact Ha.
  - assert (Hd : Forall (fun c => 48 <= c <= 57)%N
                   ((48 + n mod 10)%N :: acc)).
    { constructor; [|exact Ha]. cbv beta.
      assert (Hm : (n mod 10 < 10)%N) by (apply N.mod_upper_bound; lia).
      revert Hm. generalize (n mod 10)%N. intros x Hx. lia. }
    destruct (n <? 10)%N; [exact Hd | now apply IH].
Qed.

(** The value that a scan of digits accumulates. *)
Lemma scan_digits_digits (ds : str) :
  forall prev acc d,
    Forall (fun c => 48 <= c <= 57)%N ds ->
    prev <> underscore ->
    scan_digits prev acc d ds =
      Some (fold_left (fun a c => 10 * a + Z.of_N (c - 48))%Z ds acc,
            (d + N.of_nat (List.length ds))%N, []).
Proof.
  induction ds as [|c r IH]; intros prev acc d Hd Hp; cbn [scan_digits].
  - apply N.eqb_neq in Hp. rewrite Hp. cbn [fold_left List.length].
    now rewrite N.add_0_r.
  - inversion Hd as [|? ? Hc Hr]; subst. cbv beta in Hc.
    assert (Hu : c <> underscore) by (unfold underscore; lia).
    pose proof Hu as Hu'. apply N.eqb_neq in Hu'. rewrite Hu'.
    unfold digit.
    replace ((48 <=? c) && (c <=? 57))%N with true
      by (symmetry; apply andb_true_intro; split; apply N.leb_le; lia).
    rewrite (IH c _ _ Hr Hu). cbn [fold_left List.length].
    do 3 f_equal. lia.
Qed.

Lemma digits_fuel_value (fuel : nat) :
  forall n acc,
    (n < 2 ^ N.of_nat fuel)%N ->
    fold_left (fun a c => 10 * a + Z.of_N (c - 48))%Z
      (PyFmt.digits_fuel fuel n acc) 0%Z =
    fold_left (fun a c => 10 * a + Z.of_N (c - 48))%Z acc (Z.of_N n).
Proof.
  induction fuel as [|f IH]; intros n acc Hn; cbn [PyFmt.digits_fuel].
  - simpl in Hn. now replace n with 0%N by lia.
  - rewrite Nat2N.inj_succ, N.pow_succ_r' in Hn.
    destruct (N.ltb_spec n 10) as [Hlt|Hge].
    + cbn [fold_left]. f_equal. rewrite N.mod_small by assumption. lia.
    + rewrite IH by (apply N.Div0.div_lt_upper_bound; lia).
      cbn [fold_left]. f_equal.
      pose proof (N.div_mod' n 10) as E. revert E.
      generalize (n / 10)%N (n mod 10)%N. intros q r E. lia.
Qed.

Lemma size_nat_bound (n : N) : (n < 2 ^ N.of_nat (S (N.size_nat n)))%N.
Proof.
  rewrite Nat2N.inj_succ, N.pow_succ_r'.
  destruct n as [|p]; [simpl; lia|]. cbn [N.size_nat].
  assert (H : (N.pos p < 2 ^ N.of_nat (Pos.size_nat p))%N).
  { induction p as [p IH|p IH|]; cbn [Pos.size_nat];
      rewrite ?Nat2N.inj_succ, ?N.pow_succ_r'; [| |reflexivity];
      revert IH; generalize (2 ^ N.of_nat (Pos.size_nat p))%N; intros B IH.
    - change (N.pos p~1) with (2 * N.pos p + 1)%N. lia.
    - change (N.pos p~0) with (2 * N.pos p)%N. lia. }
  revert H. generalize (2 ^ N.of_nat (Pos.size_nat p))%N. intros B H. lia.
Qed.

Lemma decimal_digits_value (n : N) :
  fold_left (fun a c => 10 * a + Z.of_N (c - 48))%Z
    (PyFmt.decimal_digits n) 0%Z = Z.of_N n.
Proof.
  unfold PyFmt.decimal_digits.
  now rewrite digits_fuel_value by apply size_nat_bound.
Qed.

Lemma decimal_digits_chars (n : N) :
  PyFmt.decimal_digits n <> [] /\
  Forall (fun c => 48 <= c <= 57)%N (PyFmt.decimal_digits n).
Proof.
  unfold PyFmt.decimal_digits. split; [|apply digits_fuel_chars; constructor].
  cbn [PyFmt.digits_fuel]. destruct (n <? 10)%N; [discriminate|].
  destruct (digits_fuel_suffix (N.size_nat n) (n / 10)%N
              [(48 + n mod 10)%N]) as [pre ->].
  now destruct pre.
Qed.

Lemma int_of_digits (neg : bool) (ds : str) :
  ds <> [] -> Forall (fun c => 48 <= c <= 57)%N ds ->
  (max_str_digits <? N.of_nat (List.length ds))%N = false ->
  int ((if neg then [minus] else []) ++ ds) =
    Some (let v := fold_left (fun a c => 10 * a + Z.of_N (c - 48))%Z ds 0%Z in
          if neg then (- v)%Z else v).
Proof.
  intros Hne Hd Hlen. destruct ds as [|c r]; [congruence|].
  inversion Hd as [|? ? Hc Hr]; subst. cbv beta in Hc.
  assert (Hascii : forallb (fun c => c <? 128)%N
                     ((if neg then [minus] else []) ++ c :: r) = true).
  { apply forallb_forall. intros x Hx. apply N.ltb_lt.
    apply in_app_or in Hx as [Hx|Hx].
    - destruct neg; [|contradiction]. destruct Hx as [<-|[]].
      unfold minus. lia.
    - pose proof (proj1 (Forall_forall _ _) Hd x Hx) as Hr'.
      cbv beta in Hr'. lia. }
  unfold int, transform. rewrite Hascii. clear Hascii.
  assert (Hsp : is_space c = false).
  { unfold is_space. apply orb_false_intro; [apply andb_false_intro2|];
      [apply N.leb_gt | apply N.eqb_neq]; lia. }
  assert (Hmi : (c =? minus)%N = false)
    by (apply N.eqb_neq; unfold minus; lia).
  assert (Hpl : (c =? plus)%N = false)
    by (apply N.eqb_neq; unfold plus; lia).
  assert (Hun : (c =? underscore)%N = false)
    by (apply N.eqb_neq; unfold underscore; lia).
  assert (Hscan := @scan_digits_digits (c :: r) 0%N 0%Z 0%N Hd
                     ltac:(discriminate)).
  rewrite N.add_0_l in Hscan.
  assert (Hnz : (N.of_nat (List.length (c :: r)) =? 0)%N = false)
    by (apply N.eqb_neq; cbn [List.length]; lia).
  unfold int_of_ascii.
  destruct neg; cbn [app lstrip sign_and_rest];
    change (is_space minus) with false; cbv iota;
    rewrite ?Hsp; cbn [sign_and_rest];
    change (minus =? minus)%N with true; cbv iota;
    rewrite ?Hmi, ?Hpl, Hun, Hscan, Hnz; cbn [lstrip]; rewrite Hlen;
    reflexivity.
Qed.

(** X14. What [str] prints of an integer, [int] reads back as the same
    integer: the hours of the table, written before a colon, are again
    hours for [parse_time]. *)
Theorem str_int_round_trip (z : Z) (s : str) :
  PyFmt.str_of_int z = Some s ->
  int s = Some z /\
  forall rest, parse_time (s ++ colon :: rest) = z.
Proof.
  unfold PyFmt.str_of_int.
  destruct (max_str_digits <?
            N.of_nat (List.length (PyFmt.decimal_digits (Z.abs_N z))))%N
    eqn:Hlen; [discriminate|].
  intros [= <-].
  destruct (decimal_digits_chars (Z.abs_N z)) as [Hne Hd].
  assert (Hi : int (if (z <? 0)%Z
                    then minus :: PyFmt.decimal_digits (Z.abs_N z)
                    else PyFmt.decimal_digits (Z.abs_N z)) = Some z).
  { pose proof (int_of_digits (z <? 0)%Z Hne Hd Hlen) as H.
    rewrite decimal_digits_value in H. cbv zeta in H.
    destruct (Z.ltb_spec z 0); cbn [app] in H; rewrite H; f_equal; lia. }
  split; [exact Hi|].
  intros rest. apply parse_time_segment; [|exact Hi].
  assert (Hc : contains colon (PyFmt.decimal_digits (Z.abs_N z)) = false).
  { destruct (contains colon (PyFmt.decimal_digits (Z.abs_N z))) eqn:E;
      [|reflexivity].
    apply contains_In in E.
    pose proof (proj1 (Forall_forall _ _) Hd _ E) as H.
    cbv beta in H. unfold colon in H. lia. }
  destruct (z <? 0)%Z; [|exact Hc].
  unfold contains in *. cbn [existsb]. now rewrite Hc.
Qed.

Lemma str_int_round_trip_witness :
  PyFmt.str_of_int (-5) = Some (py "-5") /\
  int (py "-5") = Some (-5)%Z /\
  forall rest, parse_time (py "-5" ++ colon :: rest) = (-5)%Z.
Proof.
  assert (H : PyFmt.str_of_int (-5) = Some (py "-5")) by reflexivity.
  split; [exact H|]. exact (@str_int_round_trip (-5) (py "-5") H).
Defined.

(** ** The printed table *)

Lemma print_all_some (out : list str) :
  print_all (List.map Some out) = (out, false).
Proof.
  induction out as [|l out IH]; [reflexivity|].
  cbn [List.map print_all]. now rewrite IH.
Qed.

Lemma all_some (A : Type) (items : list (option A)) :
  Forall (fun o => o <> None) items -> exists out, items = List.map Some out.
Proof.
  induction 1 as [|o items Ho _ [out ->]]; [now exists []|].
  destruct o as [a|]; [|congruence]. now exists (a :: out).
Qed.

Lemma format_number_clean (s : str) :
  exists t, format_number (clean_num s) = Some t.
Proof.
  unfold clean_num. destruct (falsy s); [now eexists|].
  destruct (float _); now eexists.
Qed.

Lemma entry_formats (row : list str) :
  Forall (fun o => o <> None) (entry (profile_of_cells row)).
Proof.
  unfold entry, profile_of_cells.
  cbv beta iota zeta delta
    [Profile.id Profile.name Profile.usageHoursStart Profile.usageHoursEnd
     Profile.dailyUsageHours Profile.annualUsageDays Profile.usageHoursDay
     Profile.usageHoursNight Profile.hvacDailyOperationHours
     Profile.hvacAnnualOperationDays Profile.illuminance
     Profile.workplaneHeight Profile.illuminanceDepreciationFactor
     Profile.lightingAbsenceFactor Profile.partialOperationFactorLighting
     Profile.heatingSetpoint Profile.coolingSetpoint
     Profile.heatingSetbackTemp Profile.heatingDesignMinTemp
     Profile.coolingDesignMaxTemp Profile.humidityRequirement
     Profile.minOutdoorAir Profile.minOutdoorAirFlow
     Profile.hvacAbsenceFactor Profile.hvacPartialOperationFactor
     Profile.metabolicHeat Profile.equipmentHeat].
  destruct (@str_of_int_some _ (parse_time_bound (nth 1 row [])))
    as [h1 ->].
  destruct (@str_of_int_some _ (parse_time_bound (nth 2 row [])))
    as [h2 ->].
  repeat match goal with
         | |- context [format_number (clean_num ?c)] =>
             let t := fresh "t" in
             destruct (format_number_clean c) as [t ->]
         end.
  unfold fmt1, fmt2. repeat constructor; discriminate.
Qed.

Lemma table_formats (rows : list (list str)) :
  Forall (fun o => o <> None) (table (List.map profile_of_cells rows)).
Proof.
  unfold table. constructor; [discriminate|].
  apply Forall_app. split; [|repeat constructor; discriminate].
  induction rows as [|row rows IH]; [constructor|].
  cbn [List.map flat_map]. apply Forall_app. split; [|exact IH].
  apply entry_formats.
Qed.

Lemma table_length (ps : list Profile.t) :
  List.length (table ps) = 2 + 17 * List.length ps.
Proof.
  assert (H : List.length (flat_map entry ps) = 17 * List.length ps).
  { induction ps as [|p ps IH]; [reflexivity|].
    cbn [flat_map]. rewrite length_app, IH.
    change (List.length (entry p)) with 17. cbn [List.length]. lia. }
  unfold table. cbn [List.length]. rewrite length_app, H.
  cbn [List.length]. lia.
Qed.

(** X13. A run is all or nothing. Either its first part raises and
    nothing is printed, or the whole table is printed and the run ends
    normally: the opening line, seventeen strings for each record in
    order, and the closing line. No formatting raises, because an hour
    that [int] accepted has few enough digits for [str]; no run leaves a
    table cut short. *)
Theorem run_all_or_nothing (text : str) :
  (exists e, generate_ts text = inr e /\ run text = ([], Raised e)) \/
  (exists ps out,
     generate_ts text = inl ps /\
     run text = (out, Done) /\
     List.map Some out = table ps /\
     List.length out = 2 + 17 * List.length ps).
Proof.
  unfold run. destruct (generate_ts text) as [ps|e] eqn:G.
  - right. assert (F : Forall (fun o => o <> None) (table ps)).
    { rewrite generate_ts_cases in G.
      destruct (Csv.reader (TextFile.lines text)) as [[|h rows] x].
      - destruct x; discriminate.
      - destruct (forallb readable rows); [|discriminate].
        destruct x; [discriminate|]. injection G as <-.
        apply table_formats. }
    destruct (all_some F) as [out E].
    exists ps, out. rewrite E, print_all_some.
    split; [reflexivity|]. split; [reflexivity|]. split; [reflexivity|].
    rewrite <- (length_map Some out), <- E. apply table_length.
  - left. now exists e.
Qed.




